(** * Zato request-processing core: a shallow embedding and its properties

    The development follows three source files:
    - [zato/common/__init__.py]      (the [PORTS] offset table, URL types)
    - [zato/server/base/parallel.py] (error wrapping, security checks,
                                      [executeRequest], the task dispatcher)
    - [zato/broker/client.py]        (the ZeroMQ subscriber loop)

    Python exceptions are values of [Py.exn]; code that may raise returns a
    [Py.result]; code that logs threads the list of logged error lines. *)

From Stdlib Require Import ZArith Ascii String Decimal DecimalString Lia.
From stdpp Require Import base option list gmap strings.

(* ===================================================================== *)
(** ** Python values the code relies on *)
(* ===================================================================== *)

Module Py.

(** Exceptions.  Every constructor is a subclass of [Exception], so each of
    them is caught by [except Exception]. *)
Inductive exn : Type :=
| HTTPException (status : Z) (reason : string)
| AttributeError (name : string)
| KeyError (key : string)
| ZMQError (strerror : string)
| OtherError (descr : string).

Inductive result (A : Type) : Type :=
| Ret (a : A)
| Raise (e : exn).
Arguments Ret {A} a.
Arguments Raise {A} e.

(** [httplib] status codes. *)
Definition OK : Z := 200.
Definition FORBIDDEN : Z := 403.
Definition NOT_FOUND : Z := 404.

(** A computation that may raise and that appends to the error log.  The
    log survives an exception, as in Python. *)
Definition M (A : Type) : Type := list string -> result A * list string.

Definition ret {A} (a : A) : M A := fun log => (Ret a, log).
Definition raise {A} (e : exn) : M A := fun log => (Raise e, log).
Definition bind {A B} (c : M A) (k : A -> M B) : M B :=
  fun log =>
    match c log with
    | (Ret a, log') => k a log'
    | (Raise e, log') => (Raise e, log')
    end.
Definition logger_error (msg : string) : M unit :=
  fun log => (Ret tt, log ++ [msg]).

(** [d[key]] on a dictionary. *)
Definition getitem (d : gmap string string) (key : string) : M string :=
  match d !! key with
  | Some v => ret v
  | None => raise (KeyError key)
  end.

(** Truth value of [d.get(key, None)]: [None] and the empty string are
    false. *)
Definition truthy (v : option string) : bool :=
  match v with
  | None => false
  | Some EmptyString => false
  | Some (String _ _) => true
  end.

Definition digit_index (c : ascii) : option nat :=
  let n := nat_of_ascii c in
  if (48 <=? n)%nat && (n <=? 57)%nat then Some (n - 48)%nat else None.

(** [tpl.format(a0, a1, ...)] for templates whose replacement fields are the
    positional [{0}] .. [{9}], on arguments that are text.  The substituted
    text is not scanned again.  [Raw.format] adds the decoding of
    byte-string arguments, which can fail. *)
Fixpoint format (tpl : string) (args : list string) : string :=
  match tpl with
  | EmptyString => EmptyString
  | String "{" (String d (String "}" rest as tl) as tl0) =>
      match digit_index d with
      | Some i => default EmptyString (args !! i) +:+ format rest args
      | None => String "{" (format tl0 args)
      end
  | String c rest => String c (format rest args)
  end.

(** [s.replace(old, new)] for one-character [old] and [new]. *)
Fixpoint replace (old new : ascii) (s : string) : string :=
  match s with
  | EmptyString => EmptyString
  | String c rest =>
      String (if Ascii.eqb c old then new else c) (replace old new rest)
  end.

(** [str(n)] for a length. *)
Definition str (n : nat) : string := NilZero.string_of_uint (Nat.to_uint n).

End Py.

Notation "x <- c ;; k" := (Py.bind c (fun x => k))
  (at level 20, c at level 99, k at level 200, only parsing).
Notation "c ;;; k" := (Py.bind c (fun _ => k))
  (at level 100, k at level 200, right associativity, only parsing).

(* ===================================================================== *)
(** ** zato.common *)
(* ===================================================================== *)

Module Common.

Module URL_TYPE.
Definition SOAP : string := "soap".
Definition PLAIN_HTTP : string := "plain_http".
End URL_TYPE.

(** How much the ZeroMQ ports are shifted with regard to the base port
    configured for the cluster. *)
Module PORTS.
Definition BROKER_PUSH_WORKER_THREAD_PULL : Z := 0.
Definition WORKER_THREAD_PUSH_BROKER_PULL : Z := 1.
Definition BROKER_PUB_WORKER_THREAD_SUB : Z := 2.

Definition BROKER_PUSH_SINGLETON_PULL : Z := 10.
Definition SINGLETON_PUSH_BROKER_PULL : Z := 11.

Definition BROKER_PUSH_PUBLISHING_CONNECTOR_AMQP_PULL : Z := 20.
Definition PUBLISHING_CONNECTOR_AMQP_PUSH_BROKER_PULL : Z := 21.
Definition BROKER_PUB_PUBLISHING_CONNECTOR_AMQP_SUB : Z := 22.

Definition BROKER_PUSH_CONSUMING_CONNECTOR_AMQP_PULL : Z := 30.
Definition CONSUMING_CONNECTOR_AMQP_PUSH_BROKER_PULL : Z := 31.
Definition BROKER_PUB_CONSUMING_CONNECTOR_AMQP_SUB : Z := 32.

Definition BROKER_PUSH_PUBLISHING_CONNECTOR_JMS_WMQ_PULL : Z := 40.
Definition PUBLISHING_CONNECTOR_JMS_WMQ_PUSH_BROKER_PULL : Z := 41.
Definition BROKER_PUB_PUBLISHING_CONNECTOR_JMS_WMQ_SUB : Z := 42.

Definition BROKER_PUSH_CONSUMING_CONNECTOR_JMS_WMQ_PULL : Z := 50.
Definition CONSUMING_CONNECTOR_JMS_WMQ_PUSH_BROKER_PULL : Z := 51.
Definition BROKER_PUB_CONSUMING_CONNECTOR_JMS_WMQ_SUB : Z := 52.

Definition BROKER_PUSH_PUBLISHING_CONNECTOR_ZMQ_PULL : Z := 60.
Definition PUBLISHING_CONNECTOR_ZMQ_PUSH_BROKER_PULL : Z := 61.
Definition BROKER_PUB_PUBLISHING_CONNECTOR_ZMQ_SUB : Z := 62.

Definition BROKER_PUSH_CONSUMING_CONNECTOR_ZMQ_PULL : Z := 70.
Definition CONSUMING_CONNECTOR_ZMQ_PUSH_BROKER_PULL : Z := 71.
Definition BROKER_PUB_CONSUMING_CONNECTOR_ZMQ_SUB : Z := 72.

(** The attributes of the [PORTS] bunch, in the order they are set. *)
Definition items : list (string * Z) :=
  [ ("BROKER_PUSH_WORKER_THREAD_PULL", BROKER_PUSH_WORKER_THREAD_PULL);
    ("WORKER_THREAD_PUSH_BROKER_PULL", WORKER_THREAD_PUSH_BROKER_PULL);
    ("BROKER_PUB_WORKER_THREAD_SUB", BROKER_PUB_WORKER_THREAD_SUB);
    ("BROKER_PUSH_SINGLETON_PULL", BROKER_PUSH_SINGLETON_PULL);
    ("SINGLETON_PUSH_BROKER_PULL", SINGLETON_PUSH_BROKER_PULL);
    ("BROKER_PUSH_PUBLISHING_CONNECTOR_AMQP_PULL", BROKER_PUSH_PUBLISHING_CONNECTOR_AMQP_PULL);
    ("PUBLISHING_CONNECTOR_AMQP_PUSH_BROKER_PULL", PUBLISHING_CONNECTOR_AMQP_PUSH_BROKER_PULL);
    ("BROKER_PUB_PUBLISHING_CONNECTOR_AMQP_SUB", BROKER_PUB_PUBLISHING_CONNECTOR_AMQP_SUB);
    ("BROKER_PUSH_CONSUMING_CONNECTOR_AMQP_PULL", BROKER_PUSH_CONSUMING_CONNECTOR_AMQP_PULL);
    ("CONSUMING_CONNECTOR_AMQP_PUSH_BROKER_PULL", CONSUMING_CONNECTOR_AMQP_PUSH_BROKER_PULL);
    ("BROKER_PUB_CONSUMING_CONNECTOR_AMQP_SUB", BROKER_PUB_CONSUMING_CONNECTOR_AMQP_SUB);
    ("BROKER_PUSH_PUBLISHING_CONNECTOR_JMS_WMQ_PULL", BROKER_PUSH_PUBLISHING_CONNECTOR_JMS_WMQ_PULL);
    ("PUBLISHING_CONNECTOR_JMS_WMQ_PUSH_BROKER_PULL", PUBLISHING_CONNECTOR_JMS_WMQ_PUSH_BROKER_PULL);
    ("BROKER_PUB_PUBLISHING_CONNECTOR_JMS_WMQ_SUB", BROKER_PUB_PUBLISHING_CONNECTOR_JMS_WMQ_SUB);
    ("BROKER_PUSH_CONSUMING_CONNECTOR_JMS_WMQ_PULL", BROKER_PUSH_CONSUMING_CONNECTOR_JMS_WMQ_PULL);
    ("CONSUMING_CONNECTOR_JMS_WMQ_PUSH_BROKER_PULL", CONSUMING_CONNECTOR_JMS_WMQ_PUSH_BROKER_PULL);
    ("BROKER_PUB_CONSUMING_CONNECTOR_JMS_WMQ_SUB", BROKER_PUB_CONSUMING_CONNECTOR_JMS_WMQ_SUB);
    ("BROKER_PUSH_PUBLISHING_CONNECTOR_ZMQ_PULL", BROKER_PUSH_PUBLISHING_CONNECTOR_ZMQ_PULL);
    ("PUBLISHING_CONNECTOR_ZMQ_PUSH_BROKER_PULL", PUBLISHING_CONNECTOR_ZMQ_PUSH_BROKER_PULL);
    ("BROKER_PUB_PUBLISHING_CONNECTOR_ZMQ_SUB", BROKER_PUB_PUBLISHING_CONNECTOR_ZMQ_SUB);
    ("BROKER_PUSH_CONSUMING_CONNECTOR_ZMQ_PULL", BROKER_PUSH_CONSUMING_CONNECTOR_ZMQ_PULL);
    ("CONSUMING_CONNECTOR_ZMQ_PUSH_BROKER_PULL", CONSUMING_CONNECTOR_ZMQ_PUSH_BROKER_PULL);
    ("BROKER_PUB_CONSUMING_CONNECTOR_ZMQ_SUB", BROKER_PUB_CONSUMING_CONNECTOR_ZMQ_SUB) ].
End PORTS.

End Common.

(* ===================================================================== *)
(** ** zato.server.base.parallel: the HTTP listener *)
(* ===================================================================== *)

Module Listener.

(** A security definition as read from the ODB. *)
Record SecDef : Type := {
  name : string;
  password : string;
  salt : string
}.

(** An entry of [server.url_security]. *)
Record UrlData : Type := {
  url_type : string;
  sec_def : SecDef;
  sec_def_type : string
}.

Record RequestData : Type := {
  command : string;
  uri : string;
  headers : gmap string string;
  body_stream : string
}.

(** The part of zope's [HTTPTask] that [executeRequest] touches. *)
Record Task : Type := {
  request_data : RequestData;
  status : Z;
  reason : string;
  response_headers : gmap string string;
  written : list string
}.

(** A task as zope creates it for a request: status 200, nothing written. *)
Definition new_task (rd : RequestData) : Task :=
  {| request_data := rd; status := Py.OK; reason := "OK";
     response_headers := ∅; written := [] |}.

Definition setResponseStatus (t : Task) (st : Z) (rs : string) : Task :=
  {| request_data := request_data t; status := st; reason := rs;
     response_headers := response_headers t; written := written t |}.

Definition set_response_header (t : Task) (k v : string) : Task :=
  {| request_data := request_data t; status := status t; reason := reason t;
     response_headers := <[k := v]> (response_headers t);
     written := written t |}.

Definition write (t : Task) (data : string) : Task :=
  {| request_data := request_data t; status := status t; reason := reason t;
     response_headers := response_headers t;
     written := written t ++ [data] |}.

Section WithCollaborators.

(** [sha256(s).hexdigest()] of hashlib. *)
Variable sha256_hexdigest : string -> string.
(** [traceback.format_exc]. *)
Variable format_exc : Py.exn -> string.
(** How [str.format] renders the headers dictionary. *)
Variable str_of_headers : gmap string string -> string.
(** [ZATO_URL_TYPE_SOAP], imported from [zato.common]. *)
Variable ZATO_URL_TYPE_SOAP : string.
(** [server_soap_error] of [zato.server.channel.soap]; it may raise. *)
Variable server_soap_error : string -> Py.result string.
(** The per-thread context handed down to the service. *)
Variable ThreadCtx : Type.

Record Server : Type := {
  url_security : gmap string UrlData;
  soap_handler_handle :
    string -> gmap string string -> ThreadCtx -> Py.result string
}.

Definition wrap_error_message (url_type : option string) (msg : string)
  : Py.result string :=
  if decide (url_type = Some ZATO_URL_TYPE_SOAP) then server_soap_error msg
  else Py.Ret msg.

Definition zato_headers : list string := ["X_ZATO_USER"; "X_ZATO_PASSWORD"].

(** The [for header in zato_headers] loop. *)
Fixpoint check_zato_headers (hs : list string) (rd : RequestData)
    (hdrs : gmap string string) : Py.M unit :=
  match hs with
  | [] => Py.ret tt
  | header :: rest =>
      if negb (Py.truthy (hdrs !! header)) then
        let msg :=
          Py.format
            "The header [{0}] doesn't exist or is empty, URI=[{1}, headers=[{2}]]"
            [header; uri rd; str_of_headers hdrs] in
        Py.logger_error msg ;;;
        Py.raise (Py.HTTPException Py.FORBIDDEN msg)
      else check_zato_headers rest rd hdrs
  end.

Definition msg_template : string :=
  "The {0} is incorrect, URI=[{1}], X_ZATO_USER=[{2}]".

Definition _handle_security_tech_account (sd : SecDef) (rd : RequestData)
    (body : string) (hdrs : gmap string string) : Py.M unit :=
  check_zato_headers zato_headers rd hdrs ;;;
  user <- Py.getitem hdrs "X_ZATO_USER" ;;
  if negb (String.eqb user (name sd)) then
    Py.logger_error (Py.format msg_template ["username"; uri rd; user]) ;;;
    Py.raise (Py.HTTPException Py.FORBIDDEN
                (Py.format msg_template ["username or password"; uri rd; user]))
  else
    secret <- Py.getitem hdrs "X_ZATO_PASSWORD" ;;
    let incoming_password := sha256_hexdigest (secret +:+ ":" +:+ salt sd) in
    if negb (String.eqb incoming_password (password sd)) then
      user' <- Py.getitem hdrs "X_ZATO_USER" ;;
      Py.logger_error (Py.format msg_template ["password"; uri rd; user']) ;;;
      Py.raise (Py.HTTPException Py.FORBIDDEN
                  (Py.format msg_template ["username or password"; uri rd; user']))
    else Py.ret tt.

(** When a tech-account request is to be refused, as the interface
    description words it: a header is missing or empty, the user name
    differs from the configured one, or the salted hash of the supplied
    password differs from the stored one. *)
Definition header_missing_or_empty (hdrs : gmap string string)
    (k : string) : Prop :=
  hdrs !! k = None \/ hdrs !! k = Some "".

Definition credentials_refused (sd : SecDef) (hdrs : gmap string string)
  : Prop :=
  header_missing_or_empty hdrs "X_ZATO_USER"
  \/ header_missing_or_empty hdrs "X_ZATO_PASSWORD"
  \/ (exists user, hdrs !! "X_ZATO_USER" = Some user /\ user <> name sd)
  \/ (exists secret, hdrs !! "X_ZATO_PASSWORD" = Some secret
                    /\ sha256_hexdigest (secret +:+ ":" +:+ salt sd)
                       <> password sd).

Definition handler : Type :=
  SecDef -> RequestData -> string -> gmap string string -> Py.M unit.

(** [getattr(self, handler_name)]: the listener defines one method whose
    name starts with [_handle_security_]. *)
Definition getattr_self (handler_name : string) : Py.M handler :=
  if String.eqb handler_name "_handle_security_tech_account"
  then Py.ret _handle_security_tech_account
  else Py.raise (Py.AttributeError handler_name).

Definition handle_security (ud : UrlData) (rd : RequestData)
    (body : string) (hdrs : gmap string string) : Py.M unit :=
  let handler_name :=
    "_handle_security_" +:+ Py.replace "-" "_" (sec_def_type ud) in
  h <- getattr_self handler_name ;;
  h (sec_def ud) rd body hdrs.

(** The [try] block of [executeRequest]: the value of the local
    [url_type] when the block is left, and how it is left. *)
Definition try_block (server : Server) (task : Task) (thread_ctx : ThreadCtx)
    (log : list string) : option string * Py.result string * list string :=
  let rd := request_data task in
  let body := body_stream rd in
  let hdrs := headers rd in
  match url_security server !! uri rd with
  | Some ud =>
      let url_type := Some (url_type ud) in
      match handle_security ud rd body hdrs log with
      | (Py.Ret _, log') =>
          (url_type, soap_handler_handle server body hdrs thread_ctx, log')
      | (Py.Raise e, log') => (url_type, Py.Raise e, log')
      end
  | None =>
      let msg :=
        Py.format
          "The URL [{0}] doesn't exist or has no security configuration assigned"
          [uri rd] in
      (None, Py.Raise (Py.HTTPException Py.NOT_FOUND msg), log ++ [msg])
  end.

(** The two [except] clauses: the task, and the response or the
    exception raised while the error body was built. *)
Definition except_clauses (url_type : option string) (task : Task)
    (outcome : Py.result string) (log : list string)
  : Task * Py.result string * list string :=
  match outcome with
  | Py.Ret response => (task, Py.Ret response, log)
  | Py.Raise (Py.HTTPException st rs) =>
      (setResponseStatus task st rs, wrap_error_message url_type rs, log)
  | Py.Raise e =>
      let tb := format_exc e in
      (task, wrap_error_message url_type tb,
       log ++ [Py.format "Exception caught [{0}]" [tb]])
  end.

Definition content_type_of (url_type : option string) : string :=
  if decide (url_type = Some ZATO_URL_TYPE_SOAP) then "text/xml"
  else "text/plain".

Definition executeRequest (server : Server) (task : Task)
    (thread_ctx : ThreadCtx) : Py.M Task :=
  fun log =>
    let '(url_type, outcome, log1) := try_block server task thread_ctx log in
    let '(task1, response, log2) :=
      except_clauses url_type task outcome log1 in
    match response with
    | Py.Raise e => (Py.Raise e, log2)
    | Py.Ret response =>
        let task2 :=
          set_response_header task1 "Content-Type" (content_type_of url_type) in
        let task3 :=
          set_response_header task2 "Content-Length"
            (Py.str (String.length response)) in
        (Py.Ret (write task3 response), log2)
    end.

End WithCollaborators.

Arguments url_security {ThreadCtx} _.
Arguments soap_handler_handle {ThreadCtx} _ _ _ _.

End Listener.

(* ===================================================================== *)
(** ** zato.server.base.parallel: the task dispatcher *)
(* ===================================================================== *)

Module Dispatcher.

Section WithWork.

(** The HTTP tasks put on the queue by the listener. *)
Variable Work : Type.

(** The fields of zope's [ThreadedTaskDispatcher] that the two methods
    use.  [threads] maps a thread number to 1; the queue is FIFO and
    [None] is the value that tells a thread to stop. *)
Record TaskDispatcher : Type := {
  threads : gmap nat nat;
  stop_count : Z;
  queue : list (option Work)
}.

(** [while thread_no in threads: thread_no = thread_no + 1]. *)
Fixpoint next_free (fuel : nat) (ths : gmap nat nat) (thread_no : nat)
  : nat :=
  match fuel with
  | O => thread_no
  | S fuel' =>
      if decide (is_Some (ths !! thread_no))
      then next_free fuel' ths (S thread_no)
      else thread_no
  end.

(** [while running < count]: the table, [thread_no], [running] and the
    numbers of the threads started so far. *)
Fixpoint start_threads (fuel : nat) (ths : gmap nat nat) (thread_no : nat)
    (running count : Z) (started : list nat)
  : gmap nat nat * nat * Z * list nat :=
  match fuel with
  | O => (ths, thread_no, running, started)
  | S fuel' =>
      if (running <? count)%Z then
        let thread_no := next_free (S (size ths)) ths thread_no in
        let ths := <[thread_no := 1%nat]> ths in
        let running := (running + 1)%Z in
        start_threads fuel' ths (S thread_no) running count
          (started ++ [thread_no])
      else (ths, thread_no, running, started)
  end.

(** [setThreadCount], run while holding [thread_mgmt_lock]; the second
    component lists the threads handed to [start_new_thread]. *)
Definition setThreadCount (d : TaskDispatcher) (count : Z)
  : TaskDispatcher * list nat :=
  let running := (Z.of_nat (size (threads d)) - stop_count d)%Z in
  let '(ths, _, running, started) :=
    start_threads (Z.to_nat (count - running)) (threads d) 0 running count [] in
  if (running >? count)%Z then
    let to_stop := (running - count)%Z in
    ({| threads := ths;
        stop_count := (stop_count d + to_stop)%Z;
        queue := queue d ++ replicate (Z.to_nat to_stop) None |},
     started)
  else
    ({| threads := ths; stop_count := stop_count d; queue := queue d |},
     started).

(** The [finally] block of [handlerThread], under the same lock. *)
Definition deregister (d : TaskDispatcher) (thread_no : nat)
  : TaskDispatcher :=
  {| threads := delete thread_no (threads d);
     stop_count := (stop_count d - 1)%Z;
     queue := queue d |}.

(** [threads.get(thread_no)] as a truth value. *)
Definition registered (d : TaskDispatcher) (thread_no : nat) : bool :=
  match threads d !! thread_no with
  | Some (S _) => true
  | _ => false
  end.

(** The pool: the dispatcher, the threads that have left their loop but
    have not run their [finally] block yet, and the tasks handed to
    [task.service] so far, in order. *)
Record Pool : Type := {
  dispatcher : TaskDispatcher;
  leaving : gset nat;
  serviced : list Work
}.

(** The atomic steps of the pool.  A thread of the table that is not
    leaving is in its [while] loop. *)
Inductive Step : Type :=
| Resize (count : Z)          (* setThreadCount(count) *)
| AddTask (task : Work)       (* the listener: queue.put(task) *)
| Dequeue (thread_no : nat)   (* one turn of the loop of handlerThread *)
| Finally (thread_no : nat).  (* the finally block of handlerThread *)

Definition in_loop (p : Pool) (thread_no : nat) : bool :=
  bool_decide (is_Some (threads (dispatcher p) !! thread_no))
  && negb (bool_decide (thread_no ∈ leaving p)).

Definition with_queue (d : TaskDispatcher) (q : list (option Work))
  : TaskDispatcher :=
  {| threads := threads d; stop_count := stop_count d; queue := q |}.

Definition step (p : Pool) (s : Step) : option Pool :=
  match s with
  | Resize count =>
      Some {| dispatcher := fst (setThreadCount (dispatcher p) count);
              leaving := leaving p;
              serviced := serviced p |}
  | AddTask task =>
      Some {| dispatcher :=
                with_queue (dispatcher p) (queue (dispatcher p) ++ [Some task]);
              leaving := leaving p;
              serviced := serviced p |}
  | Dequeue thread_no =>
      if in_loop p thread_no then
        if registered (dispatcher p) thread_no then
          match queue (dispatcher p) with
          | [] => None                      (* queue.get() blocks *)
          | None :: rest =>                 (* break *)
              Some {| dispatcher := with_queue (dispatcher p) rest;
                      leaving := {[thread_no]} ∪ leaving p;
                      serviced := serviced p |}
          | Some task :: rest =>            (* task.service(thread_data) *)
              Some {| dispatcher := with_queue (dispatcher p) rest;
                      leaving := leaving p;
                      serviced := serviced p ++ [task] |}
          end
        else
          Some {| dispatcher := dispatcher p;
                  leaving := {[thread_no]} ∪ leaving p;
                  serviced := serviced p |}
      else None
  | Finally thread_no =>
      if bool_decide (thread_no ∈ leaving p) then
        Some {| dispatcher := deregister (dispatcher p) thread_no;
                leaving := leaving p ∖ {[thread_no]};
                serviced := serviced p |}
      else None
  end.

Fixpoint run (p : Pool) (steps : list Step) : option Pool :=
  match steps with
  | [] => Some p
  | s :: rest =>
      match step p s with
      | Some p' => run p' rest
      | None => None
      end
  end.

(** The count asked for by the last resize of a schedule, [r0] when
    there is none. *)
Fixpoint last_resize (r0 : Z) (steps : list Step) : Z :=
  match steps with
  | [] => r0
  | Resize count :: rest => last_resize count rest
  | _ :: rest => last_resize r0 rest
  end.

Fixpoint added_tasks (steps : list Step) : list Work :=
  match steps with
  | [] => []
  | AddTask task :: rest => task :: added_tasks rest
  | _ :: rest => added_tasks rest
  end.

Fixpoint sentinels (q : list (option Work)) : nat :=
  match q with
  | [] => O
  | None :: rest => S (sentinels rest)
  | Some _ :: rest => sentinels rest
  end.

Fixpoint tasks (q : list (option Work)) : list Work :=
  match q with
  | [] => []
  | None :: rest => tasks rest
  | Some t :: rest => t :: tasks rest
  end.

Definition running (d : TaskDispatcher) : Z :=
  (Z.of_nat (size (threads d)) - stop_count d)%Z.

(** A pool as the methods leave it: every table entry is 1, the leaving
    threads are in the table, and [stop_count] counts the stop values
    still queued plus the threads that took one and have not
    deregistered. *)
Definition consistent (p : Pool) : Prop :=
  (forall i v, threads (dispatcher p) !! i = Some v -> v = 1%nat)
  /\ leaving p ⊆ dom (threads (dispatcher p))
  /\ stop_count (dispatcher p)
     = Z.of_nat (sentinels (queue (dispatcher p)) + size (leaving p)).

(** Every stop value has been taken from the queue. *)
Definition settled (p : Pool) : Prop :=
  sentinels (queue (dispatcher p)) = O.

(** What one step does to the count of running threads and to the
    tasks. *)
Definition step_effect (p : Pool) (s : Step) (p' : Pool) : Prop :=
  running (dispatcher p')
  = match s with
    | Resize count => count
    | _ => running (dispatcher p)
    end
  /\ serviced p' ++ tasks (queue (dispatcher p'))
     = serviced p ++ tasks (queue (dispatcher p))
         ++ match s with
            | AddTask task => [task]
            | _ => []
            end.

(** The threads still in their loop. *)
Definition live (p : Pool) : gset nat :=
  dom (threads (dispatcher p)) ∖ leaving p.

(** [i] is the smallest number outside the set [used]. *)
Definition least_free (used : gset nat) (i : nat) : Prop :=
  (i ∉ used) /\ (forall j, (j < i)%nat -> j ∈ used).

(** Each started thread got the smallest number free at that moment. *)
Fixpoint least_free_sequence (used : gset nat) (started : list nat) : Prop :=
  match started with
  | [] => True
  | i :: rest => least_free used i /\ least_free_sequence ({[i]} ∪ used) rest
  end.

End WithWork.

Arguments threads {Work} _.
Arguments stop_count {Work} _.
Arguments queue {Work} _.
Arguments dispatcher {Work} _.
Arguments leaving {Work} _.
Arguments serviced {Work} _.
Arguments Resize {Work} _.
Arguments AddTask {Work} _.
Arguments Dequeue {Work} _.
Arguments Finally {Work} _.
Arguments setThreadCount {Work} _ _.
Arguments deregister {Work} _ _.
Arguments registered {Work} _ _.
Arguments step {Work} _ _.
Arguments run {Work} _ _.
Arguments last_resize {Work} _ _.
Arguments added_tasks {Work} _.
Arguments sentinels {Work} _.
Arguments tasks {Work} _.
Arguments running {Work} _.
Arguments consistent {Work} _.
Arguments settled {Work} _.
Arguments step_effect {Work} _ _ _.
Arguments live {Work} _.
Arguments in_loop {Work} _ _.
Arguments with_queue {Work} _ _.

End Dispatcher.

(* ===================================================================== *)
(** ** zato.server.base.parallel: broker addresses of the server *)
(* ===================================================================== *)

Module Server.

Record Cluster : Type := {
  broker_host : string;
  broker_start_port : Z;
  broker_token : string
}.

(** The address [tcp://host:port], kept as its two parts. *)
Record Address : Type := { host : string; port : Z }.

(** The keyword arguments handed to [singleton_server.run]. *)
Record SingletonKwargs : Type := {
  kw_broker_host : string;
  broker_push_port : Z;
  broker_sub_port : Z;
  kw_broker_token : string
}.

Record BrokerConfig : Type := {
  broker_push_addr : Address;
  broker_pull_addr : Address;
  singleton : option SingletonKwargs
}.

Definition singleton_kwargs (c : Cluster) : SingletonKwargs :=
  {| kw_broker_host := broker_host c;
     broker_push_port := (broker_start_port c + 2)%Z;
     broker_sub_port := (broker_start_port c + 3)%Z;
     kw_broker_token := broker_token c |}.

(** The broker part of [ParallelServer._after_init_common]. *)
Definition _after_init_common (c : Cluster) (singleton_server : bool)
  : BrokerConfig :=
  {| broker_push_addr :=
       {| host := broker_host c; port := broker_start_port c |};
     broker_pull_addr :=
       {| host := broker_host c; port := (broker_start_port c + 1)%Z |};
     singleton :=
       if singleton_server then Some (singleton_kwargs c) else None |}.

End Server.

(* ===================================================================== *)
(** ** zato.broker.client: the ZeroMQ subscriber *)
(* ===================================================================== *)

Module Client.

(** The attributes of a [ZMQSub] object.  [socket] is the attribute that
    [close] reads; [None] means the object has no such attribute, [Some b]
    that it holds a socket, closed when [b] is true. *)
Record ZMQSub : Type := {
  address : string;
  sub_patterns : list string;
  keep_running : bool;
  socket : option bool
}.

(** [ZMQSub(zmq_context, address, on_message_handler)] with the default
    patterns and flag. *)
Definition __init__ (addr : string) : ZMQSub :=
  {| address := addr; sub_patterns := [""]; keep_running := true;
     socket := None |}.

(** [close]: the flag first, then [self.socket.close()]. *)
Definition close (sub : ZMQSub) : ZMQSub * Py.result unit :=
  match socket sub with
  | None =>
      ({| address := address sub; sub_patterns := sub_patterns sub;
          keep_running := false; socket := None |},
       Py.Raise (Py.AttributeError "socket"))
  | Some _ =>
      ({| address := address sub; sub_patterns := sub_patterns sub;
          keep_running := false; socket := Some true |},
       Py.Ret tt)
  end.

(** What the loop does that can be seen from outside. *)
Inductive Action : Type :=
| on_before_msg_handler (msg : string)
| on_message_handler (msg : string)
| on_after_msg_handler (msg : string) (e : option Py.exn)
| logger_error (line : string).

(** Where the thread running [listen] is. *)
Inductive Where : Type :=
| InPoll                 (* inside poller.poll() *)
| Stopped                (* the while loop has ended *)
| Died (e : Py.exn).     (* an exception left listen *)

Record Listening : Type := {
  sub : ZMQSub;
  position : Where;
  trace : list Action
}.

(** What happens around the thread.  [poller.poll()] is called without a
    timeout: it returns when a message is there or the transport fails,
    not when time passes. *)
Inductive Input : Type :=
| Message (msg : string)
| TransportError (strerror : string)
| CloseCalled            (* another thread calls close() *)
| PollInterval.          (* time passes, nothing arrives *)

Section WithHandler.

(** The caller's handler: [None] when it returns, the exception when it
    raises. *)
Variable handler : string -> option Py.exn.
Variable format_exc : Py.exn -> string.

(** The [else] branch of the loop body, run for a received message. *)
Definition dispatch (msg : string) : list Action :=
  on_before_msg_handler msg
    :: on_message_handler msg
    :: match handler msg with
       | None => [on_after_msg_handler msg None]
       | Some e =>
           let msg := "Could not invoke the message handler, msg [{0}] e [{1}]" in
           [ logger_error (Py.format msg [msg; format_exc e]);
             on_after_msg_handler msg (Some e) ]
       end.

(** [while self.keep_running:] followed by the call of [poll]. *)
Definition loop_head (s : ZMQSub) (tr : list Action) : Listening :=
  {| sub := s;
     position := if keep_running s then InPoll else Stopped;
     trace := tr |}.

(** [listen] up to its first [poll]. *)
Definition listen (s : ZMQSub) : Listening := loop_head s [].

Definition react (l : Listening) (i : Input) : Listening :=
  match i, position l with
  | CloseCalled, _ =>
      {| sub := fst (close (sub l)); position := position l;
         trace := trace l |}
  | Message msg, InPoll => loop_head (sub l) (trace l ++ dispatch msg)
  | TransportError strerror, InPoll =>
      let msg := Py.format "Caught ZMQError [{0}], quitting." [strerror] in
      let tr := trace l ++ [logger_error msg] in
      match close (sub l) with
      | (s, Py.Ret _) => loop_head s tr
      | (s, Py.Raise e) => {| sub := s; position := Died e; trace := tr |}
      end
  | _, _ => l
  end.

Definition run (l : Listening) (inputs : list Input) : Listening :=
  fold_left react inputs l.

End WithHandler.

End Client.

(* ===================================================================== *)
(** ** Sample collaborators, to run the model on concrete requests *)
(* ===================================================================== *)

Module Sample.

Definition digest (s : string) : string := "sha256<" +:+ s +:+ ">".

Definition format_exc (e : Py.exn) : string :=
  match e with
  | Py.HTTPException _ rs => "HTTPException: " +:+ rs
  | Py.AttributeError n => "AttributeError: " +:+ n
  | Py.KeyError k => "KeyError: " +:+ k
  | Py.ZMQError m => "ZMQError: " +:+ m
  | Py.OtherError d => "Exception: " +:+ d
  end.

Definition str_of_headers (h : gmap string string) : string :=
  match h !! "X_ZATO_USER" with
  | Some u => "{X_ZATO_USER: " +:+ u +:+ "}"
  | None => "{}"
  end.

Definition soap : string := Common.URL_TYPE.SOAP.

Definition server_soap_error (m : string) : Py.result string :=
  Py.Ret ("<soap:Fault>" +:+ m +:+ "</soap:Fault>").

Definition sec_def : Listener.SecDef :=
  {| Listener.name := "u";
     Listener.password := digest "secret:s";
     Listener.salt := "s" |}.

Definition request (path : string) (hdrs : gmap string string)
  : Listener.RequestData :=
  {| Listener.command := "POST"; Listener.uri := path;
     Listener.headers := hdrs; Listener.body_stream := "<ping/>" |}.

Definition credentials (user secret : string) : gmap string string :=
  <["X_ZATO_USER" := user]> (<["X_ZATO_PASSWORD" := secret]> ∅).

Definition server (kind : string) : Listener.Server unit :=
  {| Listener.url_security :=
       <["/svc" := {| Listener.url_type := Common.URL_TYPE.PLAIN_HTTP;
                      Listener.sec_def := sec_def;
                      Listener.sec_def_type := kind |}]> ∅;
     Listener.soap_handler_handle := fun body _ _ => Py.Ret ("pong:" +:+ body) |}.

Definition run (kind path : string) (hdrs : gmap string string)
  : Py.result Listener.Task * list string :=
  Listener.executeRequest digest format_exc str_of_headers soap
    server_soap_error unit (server kind)
    (Listener.new_task (request path hdrs)) tt [].

(** A pool with no thread yet, and a schedule: grow to three threads,
    shrink to one while tasks keep arriving, let the threads run. *)
Definition empty_pool : Dispatcher.Pool string :=
  {| Dispatcher.dispatcher :=
       {| Dispatcher.threads := ∅; Dispatcher.stop_count := 0;
          Dispatcher.queue := [] |};
     Dispatcher.leaving := ∅;
     Dispatcher.serviced := [] |}.

Definition schedule : list (Dispatcher.Step string) :=
  [ Dispatcher.Resize 3; Dispatcher.AddTask "a"; Dispatcher.Resize 1;
    Dispatcher.AddTask "b"; Dispatcher.Dequeue 0; Dispatcher.Dequeue 1;
    Dispatcher.Dequeue 2; Dispatcher.Finally 1; Dispatcher.Finally 2;
    Dispatcher.Dequeue 0 ].

(** A handler that fails on the message "boom". *)
Definition handler (msg : string) : option Py.exn :=
  if String.eqb msg "boom" then Some (Py.OtherError "bad payload") else None.

End Sample.

(* ===================================================================== *)
(** ** zato.server.base.parallel: one worker thread, run on its own *)
(* ===================================================================== *)

Module Worker.

Section WithService.

Variable Work : Type.
(** [task.service(thread_data)]: [None] when it returns, the exception when
    it raises. *)
Variable service : Work -> option Py.exn.
Variable format_exc : Py.exn -> string.

Inductive Outcome : Type :=
| Waiting      (* inside queue.get(), the queue being empty *)
| Exited.      (* the finally block has run *)

Record Run : Type := {
  dispatcher : Dispatcher.TaskDispatcher Work;
  serviced : list Work;
  log : list string;
  outcome : Outcome
}.

(** The [while] loop of [handlerThread] for a thread that runs alone: the
    queue left, the tasks serviced, the lines logged, and whether the loop
    was left. *)
Fixpoint loop (registered : bool) (q : list (option Work))
    (done : list Work) (lines : list string)
  : list (option Work) * list Work * list string * Outcome :=
  match q with
  | [] => (q, done, lines, if registered then Waiting else Exited)
  | item :: rest =>
      if registered then
        match item with
        | None => (rest, done, lines, Exited)
        | Some task =>
            loop registered rest (done ++ [task])
              match service task with
              | None => lines
              | Some e =>
                  lines ++ [Py.format "Exception during task {0}" [format_exc e]]
              end
        end
      else (q, done, lines, Exited)
  end.

(** [handlerThread(thread_no, thread_data)] from the [while] loop on. *)
Definition handlerThread (d : Dispatcher.TaskDispatcher Work)
    (thread_no : nat) : Run :=
  let '(q, done, lines, out) :=
    loop (Dispatcher.registered d thread_no) (Dispatcher.queue d) [] [] in
  {| dispatcher :=
       match out with
       | Waiting => Dispatcher.with_queue d q
       | Exited => Dispatcher.deregister (Dispatcher.with_queue d q) thread_no
       end;
     serviced := done;
     log := lines;
     outcome := out |}.

(** The lines logged for the tasks that raise. *)
Definition failures (ts : list Work) : list string :=
  ts ≫= fun task =>
    match service task with
    | None => []
    | Some e => [Py.format "Exception during task {0}" [format_exc e]]
    end.

End WithService.

Arguments dispatcher {Work} _.
Arguments serviced {Work} _.
Arguments log {Work} _.
Arguments outcome {Work} _.
Arguments handlerThread {Work} _ _ _ _.
Arguments loop {Work} _ _ _ _ _ _.
Arguments failures {Work} _ _ _.

(** [ThreadedTaskDispatcher()] before any thread is started. *)
Definition new_dispatcher (Work : Type) : Dispatcher.TaskDispatcher Work :=
  {| Dispatcher.threads := ∅; Dispatcher.stop_count := 0;
     Dispatcher.queue := [] |}.

End Worker.

(* ===================================================================== *)
(** ** zato.server.base.parallel: HTTP tasks and their channel *)
(* ===================================================================== *)

Module Channel.

(** What a step of a task may raise. *)
Inductive failure : Type :=
| socket_error
| other_error (e : Py.exn).

Inductive Call : Type := Start | ExecuteRequest | Finish.

(** A step of a task: from the value of [close_on_finish] to its new value
    and the exception raised, if any. *)
Definition step_of : Type := bool -> bool * option failure.

(** An [_HTTPTask]: its three steps, [close_on_finish], and
    [channel.adj.log_socket_errors]. *)
Record HTTPTask : Type := {
  start : step_of;
  executeRequest : step_of;
  finish : step_of;
  close_on_finish : bool;
  log_socket_errors : bool
}.

Record TaskRun : Type := {
  calls : list Call;
  close_when_done : bool;      (* channel.close_when_done() was called *)
  raised : option failure      (* what leaves service() *)
}.

(** The inner [try] block. *)
Definition try_steps (t : HTTPTask) : bool * option failure * list Call :=
  match start t (close_on_finish t) with
  | (c1, Some f) => (c1, Some f, [Start])
  | (c1, None) =>
      match executeRequest t c1 with
      | (c2, Some f) => (c2, Some f, [Start; ExecuteRequest])
      | (c2, None) =>
          match finish t c2 with
          | (c3, r) => (c3, r, [Start; ExecuteRequest; Finish])
          end
      end
  end.

(** [_HTTPTask.service]. *)
Definition task_service (t : HTTPTask) : TaskRun :=
  let '(c, r, cs) := try_steps t in
  match r with
  | Some socket_error =>
      {| calls := cs; close_when_done := true;
         raised := if log_socket_errors t then Some socket_error else None |}
  | _ => {| calls := cs; close_when_done := c; raised := r |}
  end.

Section WithTasks.

Variable T : Type.
Variable E : Type.
(** [task.service(thread_data)]: what it raises, if anything. *)
Variable service_of : T -> option E.

Record ServerChannel : Type := {
  tasks : list T;
  running_tasks : bool;
  is_async : bool
}.

Record Serviced : Type := {
  channel : ServerChannel;
  attempted : list T;      (* the tasks whose service() was called *)
  re_added : nat;          (* calls of server.addTask(self) *)
  propagated : option E
}.

(** The [while True] loop of [_HTTPServerChannel.service]. *)
Fixpoint service_loop (ts : list T) (running async : bool) (done : list T)
  : Serviced :=
  match ts with
  | [] =>
      {| channel := {| tasks := []; running_tasks := false; is_async := true |};
         attempted := done; re_added := 0; propagated := None |}
  | task :: rest =>
      match service_of task with
      | None => service_loop rest running async (done ++ [task])
      | Some e =>
          {| channel :=
               {| tasks := rest; running_tasks := running; is_async := async |};
             attempted := done ++ [task]; re_added := 1;
             propagated := Some e |}
      end
  end.

Definition service (c : ServerChannel) : Serviced :=
  service_loop (tasks c) (running_tasks c) (is_async c) [].

End WithTasks.

Arguments tasks {T} _.
Arguments running_tasks {T} _.
Arguments is_async {T} _.
Arguments channel {T E} _.
Arguments attempted {T E} _.
Arguments re_added {T E} _.
Arguments propagated {T E} _.
Arguments service {T E} _ _.
Arguments service_loop {T E} _ _ _ _ _.

End Channel.

(* ===================================================================== *)
(** ** zato.common: StatsElem *)
(* ===================================================================== *)

Module Stats.

Section WithOthers.

(** The attributes that [__iadd__] does not read or write, taken together. *)
Variable Others : Type.
(** [sys.maxint]. *)
Variable maxint : Z.

Record StatsElem : Type := {
  usage : Z;
  min_resp_time : Z;
  max_resp_time : Z;
  others : Others
}.

(** The three attributes as [__init__] sets them. *)
Definition __init__ (o : Others) : StatsElem :=
  {| usage := 0; min_resp_time := maxint; max_resp_time := 0; others := o |}.

(** [self += other]. *)
Definition __iadd__ (self other : StatsElem) : StatsElem :=
  {| usage := (usage self + usage other)%Z;
     min_resp_time := Z.min (min_resp_time self) (min_resp_time other);
     max_resp_time := Z.max (max_resp_time self) (max_resp_time other);
     others := others self |}.

End WithOthers.

Arguments usage {Others} _.
Arguments min_resp_time {Others} _.
Arguments max_resp_time {Others} _.
Arguments others {Others} _.
Arguments __iadd__ {Others} _ _.
Arguments __init__ {Others} _ _.

Section Attributes.

Variable Value : Type.

(** An entry of [dir(self)]: the value [getattr] gives and whether it is
    callable. *)
Record Attr : Type := { value : Value; is_callable : bool }.

(** The list [to_dict] uses when [ignore] is not given. *)
Definition default_ignore : list string :=
  ["expected_time_elems"; "mean_trend_int"; "usage_trend_int"].

(** The test of [get_attrs]: an attribute is yielded unless its name starts
    with "__" or "temp_", it is callable, or it is in [ignore]. *)
Definition yielded (ignore : list string) (attr : string) (a : Attr) : bool :=
  negb (String.prefix "__" attr || String.prefix "temp_" attr
        || is_callable a || bool_decide (attr ∈ ignore)).

(** [get_attrs(ignore)] together with the values: the attributes yielded,
    as a map (the order of [dir] is not kept). *)
Definition get_attrs (self : gmap string Attr) (ignore : list string)
  : gmap string Attr :=
  filter (fun kv => yielded ignore kv.1 kv.2 = true) self.

(** [to_dict(ignore)]; [None] is the default argument. *)
Definition to_dict (self : gmap string Attr) (ignore : option (list string))
  : gmap string Value :=
  let ignore :=
    match ignore with
    | None | Some [] => default_ignore
    | Some (name :: names) => name :: names
    end in
  value <$> get_attrs self ignore.

End Attributes.

Arguments value {Value} _.
Arguments is_callable {Value} _.
Arguments get_attrs {Value} _ _.
Arguments to_dict {Value} _ _.
Arguments yielded {Value} _ _ _.

End Stats.

(* ===================================================================== *)
(** ** zato.broker.client: BrokerClient *)
(* ===================================================================== *)

Module Broker.

Record ZMQPush : Type := {
  push_address : string;
  socket_type : nat;
  push_closed : bool
}.

Record BrokerClient : Type := {
  _push : ZMQPush;
  _sub : Client.ZMQSub
}.

Section WithZmq.

(** [zmq.PUSH]. *)
Variable PUSH : nat.

(** [BrokerClient(zmq_context, push_address, sub_address, handler)]. *)
Definition __init__ (push_addr sub_addr : string) : BrokerClient :=
  {| _push := {| push_address := push_addr; socket_type := PUSH;
                 push_closed := false |};
     _sub := Client.__init__ sub_addr |}.

End WithZmq.

(** [ZMQPush.close]: the line logged at info level and the closed socket. *)
Definition push_close (p : ZMQPush) : ZMQPush * string :=
  ({| push_address := push_address p; socket_type := socket_type p;
      push_closed := true |},
   Py.format "Stopping [{0}/{1}]" [push_address p; Py.str (socket_type p)]).

(** [BrokerClient.close]: [_push.close()], then [_sub.close()]. *)
Definition close (c : BrokerClient)
  : BrokerClient * list string * Py.result unit :=
  let '(p, line) := push_close (_push c) in
  let '(s, r) := Client.close (_sub c) in
  ({| _push := p; _sub := s |}, [line], r).

End Broker.

(* ===================================================================== *)
(** ** Byte strings against unicode text (Python 2, unicode_literals) *)
(* ===================================================================== *)

(** [parallel.py] is compiled with [unicode_literals]: its templates and
    the ":" of the password hash are unicode, while the URI, the header
    values and the traceback are byte strings.  Wherever the code mixes the
    two, Python decodes the bytes as ASCII and raises UnicodeDecodeError on
    a byte above 127.  The listener of [Listener] is the code on ASCII
    input; [Raw] is the same code with these decodings written out. *)
Module Raw.

Definition is_ascii (s : string) : bool :=
  forallb (fun c => (nat_of_ascii c <? 128)%nat) (list_ascii_of_string s).

Definition UnicodeDecodeError : Py.exn := Py.OtherError "UnicodeDecodeError".
Definition UnicodeEncodeError : Py.exn := Py.OtherError "UnicodeEncodeError".

(** An argument of [unicode.format]: unicode text, or a byte string that is
    decoded first. *)
Inductive farg : Type :=
| Text (s : string)
| Bytes (s : string).

Definition decodes (a : farg) : bool :=
  match a with
  | Text _ => true
  | Bytes b => is_ascii b
  end.

Definition payload (a : farg) : string :=
  match a with
  | Text s => s
  | Bytes s => s
  end.

(** [tpl.format(a0, a1, ...)] for a unicode template all of whose arguments
    are used. *)
Definition format (tpl : string) (args : list farg) : Py.M string :=
  if forallb decodes args then Py.ret (Py.format tpl (payload <$> args))
  else Py.raise UnicodeDecodeError.

(** [b != u] for a byte string and a unicode text: bytes that do not decode
    are unequal to every text. *)
Definition differs (b u : string) : bool :=
  negb (is_ascii b && String.eqb b u).

(** What leaves a call: an [Exception], or an exception that only derives
    from [BaseException], which [except Exception] lets through. *)
Inductive raised : Type :=
| Exc (e : Py.exn)
| BaseOnly (name : string).

Inductive ServiceResult : Type :=
| Returned (response : string)
| Raised (r : raised).

(** How [executeRequest] ends: by writing a response, or with an exception
    that leaves it. *)
Inductive Outcome : Type :=
| Answered (t : Listener.Task)
| Escaped (r : raised).

Section WithCollaborators.

Variable sha256_hexdigest : string -> string.
Variable format_exc : Py.exn -> string.
Variable str_of_headers : gmap string string -> string.
Variable ZATO_URL_TYPE_SOAP : string.
Variable server_soap_error : string -> Py.result string.
Variable ThreadCtx : Type.

Record Server : Type := {
  url_security : gmap string Listener.UrlData;
  soap_handler_handle :
    string -> gmap string string -> ThreadCtx -> ServiceResult
}.

Fixpoint check_zato_headers (hs : list string) (rd : Listener.RequestData)
    (hdrs : gmap string string) : Py.M unit :=
  match hs with
  | [] => Py.ret tt
  | header :: rest =>
      if negb (Py.truthy (hdrs !! header)) then
        msg <- format
                 "The header [{0}] doesn't exist or is empty, URI=[{1}, headers=[{2}]]"
                 [Text header; Bytes (Listener.uri rd);
                  Text (str_of_headers hdrs)] ;;
        Py.logger_error msg ;;;
        Py.raise (Py.HTTPException Py.FORBIDDEN msg)
      else check_zato_headers rest rd hdrs
  end.

(** The two lines of a failed check: the logged one, then the raise. *)
Definition refuse (what : string) (rd : Listener.RequestData)
    (hdrs : gmap string string) : Py.M unit :=
  user <- Py.getitem hdrs "X_ZATO_USER" ;;
  line <- format Listener.msg_template
            [Text what; Bytes (Listener.uri rd); Bytes user] ;;
  Py.logger_error line ;;;
  user' <- Py.getitem hdrs "X_ZATO_USER" ;;
  msg <- format Listener.msg_template
           [Text "username or password"; Bytes (Listener.uri rd); Bytes user'] ;;
  Py.raise (Py.HTTPException Py.FORBIDDEN msg).

(** [sha256(secret + ':' + salt).hexdigest()]: the byte string is decoded
    for the concatenation, the unicode result encoded for the hash. *)
Definition salted_hash (secret salt : string) : Py.M string :=
  if is_ascii secret then
    if is_ascii salt
    then Py.ret (sha256_hexdigest (secret +:+ ":" +:+ salt))
    else Py.raise UnicodeEncodeError
  else Py.raise UnicodeDecodeError.

Definition _handle_security_tech_account (sd : Listener.SecDef)
    (rd : Listener.RequestData) (body : string) (hdrs : gmap string string)
  : Py.M unit :=
  check_zato_headers Listener.zato_headers rd hdrs ;;;
  user <- Py.getitem hdrs "X_ZATO_USER" ;;
  if differs user (Listener.name sd) then refuse "username" rd hdrs
  else
    secret <- Py.getitem hdrs "X_ZATO_PASSWORD" ;;
    incoming_password <- salted_hash secret (Listener.salt sd) ;;
    if negb (String.eqb incoming_password (Listener.password sd))
    then refuse "password" rd hdrs
    else Py.ret tt.

Definition handle_security (ud : Listener.UrlData)
    (rd : Listener.RequestData) (body : string) (hdrs : gmap string string)
  : Py.M unit :=
  let handler_name :=
    "_handle_security_" +:+ Py.replace "-" "_" (Listener.sec_def_type ud) in
  if String.eqb handler_name "_handle_security_tech_account"
  then _handle_security_tech_account (Listener.sec_def ud) rd body hdrs
  else Py.raise (Py.AttributeError handler_name).

Definition wrap_error_message (url_type : option string) (msg : string)
  : Py.result string :=
  Listener.wrap_error_message ZATO_URL_TYPE_SOAP server_soap_error url_type msg.

(** The [try] block: the local [url_type], how the block is left, the log. *)
Definition try_block (server : Server) (task : Listener.Task)
    (thread_ctx : ThreadCtx) (log : list string)
  : option string * ServiceResult * list string :=
  let rd := Listener.request_data task in
  let body := Listener.body_stream rd in
  let hdrs := Listener.headers rd in
  match url_security server !! Listener.uri rd with
  | Some ud =>
      let url_type := Some (Listener.url_type ud) in
      match handle_security ud rd body hdrs log with
      | (Py.Ret _, log') =>
          (url_type, soap_handler_handle server body hdrs thread_ctx, log')
      | (Py.Raise e, log') => (url_type, Raised (Exc e), log')
      end
  | None =>
      match
        format
          "The URL [{0}] doesn't exist or has no security configuration assigned"
          [Bytes (Listener.uri rd)] log
      with
      | (Py.Ret msg, _) =>
          (None, Raised (Exc (Py.HTTPException Py.NOT_FOUND msg)), log ++ [msg])
      | (Py.Raise e, _) => (None, Raised (Exc e), log)
      end
  end.

(** The [except] clauses; an exception raised inside a clause, or one that
    no clause catches, leaves [executeRequest]. *)
Definition except_clauses (url_type : option string) (task : Listener.Task)
    (result : ServiceResult) (log : list string)
  : (Listener.Task * string + raised) * list string :=
  let wrapped t msg l :=
    match wrap_error_message url_type msg with
    | Py.Ret response => (inl (t, response), l)
    | Py.Raise e => (inr (Exc e), l)
    end in
  match result with
  | Returned response => (inl (task, response), log)
  | Raised (Exc (Py.HTTPException st rs)) =>
      wrapped (Listener.setResponseStatus task st rs) rs log
  | Raised (Exc e) =>
      let tb := format_exc e in
      match format "Exception caught [{0}]" [Bytes tb] log with
      | (Py.Ret line, _) => wrapped task tb (log ++ [line])
      | (Py.Raise e', _) => (inr (Exc e'), log)
      end
  | Raised (BaseOnly name) => (inr (BaseOnly name), log)
  end.

Definition executeRequest (server : Server) (task : Listener.Task)
    (thread_ctx : ThreadCtx) (log : list string) : Outcome * list string :=
  let '(url_type, result, log1) := try_block server task thread_ctx log in
  match except_clauses url_type task result log1 with
  | (inr r, log2) => (Escaped r, log2)
  | (inl (task1, response), log2) =>
      let task2 :=
        Listener.set_response_header task1 "Content-Type"
          (Listener.content_type_of ZATO_URL_TYPE_SOAP url_type) in
      let task3 :=
        Listener.set_response_header task2 "Content-Length"
          (Py.str (String.length response)) in
      (Answered (Listener.write task3 response), log2)
  end.

End WithCollaborators.

Arguments url_security {ThreadCtx} _.
Arguments soap_handler_handle {ThreadCtx} _ _ _ _.

End Raw.

(* ===================================================================== *)
(** ** The SOAP fault envelope *)
(* ===================================================================== *)

Module SoapSpec.

Section Envelope.

(** The text of the fault envelope before and after the message. *)
Variables fault_open fault_close : string.

(** Modelled from the spec: [server_soap_error] of
    [zato.server.channel.soap], which is not among the sources.  The
    design describes it as wrapping the raw message inside the protocol's
    standard fault envelope, as a pure function that never throws. *)
Definition server_soap_error (msg : string) : Py.result string :=
  Py.Ret (fault_open +:+ msg +:+ fault_close).

End Envelope.

End SoapSpec.

(* ===================================================================== *)
(** ** Sample requests with bytes above 127 *)
(* ===================================================================== *)

Module RawSample.

(** The two bytes of a small e with acute accent in UTF-8. *)
Definition e_acute : string :=
  String (ascii_of_nat 195) (String (ascii_of_nat 169) EmptyString).

Definition server (service : Raw.ServiceResult) : Raw.Server unit :=
  {| Raw.url_security := Listener.url_security (Sample.server "tech-account");
     Raw.soap_handler_handle := fun _ _ _ => service |}.

Definition run (service : Raw.ServiceResult) (path : string)
    (hdrs : gmap string string) : Raw.Outcome * list string :=
  Raw.executeRequest Sample.digest Sample.format_exc Sample.str_of_headers
    Sample.soap Sample.server_soap_error unit (server service)
    (Listener.new_task (Sample.request path hdrs)) tt [].

Definition validate (hdrs : gmap string string)
  : Py.result unit * list string :=
  Raw._handle_security_tech_account Sample.digest Sample.str_of_headers
    Sample.sec_def (Sample.request "/svc" hdrs) "<ping/>" hdrs [].

End RawSample.

(* ===================================================================== *)
(** * Properties *)
(* ===================================================================== *)

Example format_demo :
  Py.format "The {0} is incorrect, URI=[{1}], X_ZATO_USER=[{2}]" ["password"; "/svc"; "u"]
  = "The password is incorrect, URI=[/svc], X_ZATO_USER=[u]".
Proof. reflexivity. Qed.
Example str_demo : Py.str 0 = "0" /\ Py.str 120 = "120".
Proof. split; reflexivity. Qed.

Example run_ok :
  fst (Sample.run "tech-account" "/svc" (Sample.credentials "u" "secret"))
  = Py.Ret
      {| Listener.request_data :=
           Sample.request "/svc" (Sample.credentials "u" "secret");
         Listener.status := 200; Listener.reason := "OK";
         Listener.response_headers :=
           <["Content-Length" := "12"]> (<["Content-Type" := "text/plain"]> ∅);
         Listener.written := ["pong:<ping/>"] |}.
Proof. vm_compute. reflexivity. Qed.

Section ListenerProperties.

Variable sha256_hexdigest : string -> string.
Variable format_exc : Py.exn -> string.
Variable str_of_headers : gmap string string -> string.
Variable ZATO_URL_TYPE_SOAP : string.
Variable server_soap_error : string -> Py.result string.
Variable ThreadCtx : Type.

Local Abbreviation wrap_error_message :=
  (Listener.wrap_error_message ZATO_URL_TYPE_SOAP server_soap_error).
Local Abbreviation tech_account :=
  (Listener._handle_security_tech_account sha256_hexdigest str_of_headers).
Local Abbreviation handle_security :=
  (Listener.handle_security sha256_hexdigest str_of_headers).
Local Abbreviation try_block :=
  (Listener.try_block sha256_hexdigest str_of_headers ThreadCtx).
Local Abbreviation executeRequest :=
  (Listener.executeRequest sha256_hexdigest format_exc str_of_headers
     ZATO_URL_TYPE_SOAP server_soap_error ThreadCtx).

Local Abbreviation missing_header_msg hdr rd hdrs :=
  (Py.format
     "The header [{0}] doesn't exist or is empty, URI=[{1}, headers=[{2}]]"
     [hdr; Listener.uri rd; str_of_headers hdrs]).
Local Abbreviation logged_msg what rd user :=
  (Py.format Listener.msg_template [what; Listener.uri rd; user]).
Local Abbreviation hash_of secret sd :=
  (sha256_hexdigest (secret +:+ ":" +:+ Listener.salt sd)).

Lemma truthy_spec v :
  Py.truthy v = true <-> exists s, v = Some s /\ s <> "".
Proof.
  destruct v as [[|c s]|]; simpl; split; try discriminate; try done.
  - intros (s & [= <-] & Hs). by destruct Hs.
  - intros _. eexists. split; [reflexivity | discriminate].
  - intros (s & [=] & _).
Qed.

(** What the validator does, case by case, in the order of its checks. *)
Lemma tech_account_unfold sd rd body hdrs log :
  tech_account sd rd body hdrs log =
  if negb (Py.truthy (hdrs !! "X_ZATO_USER")) then
    (Py.Raise (Py.HTTPException 403 (missing_header_msg "X_ZATO_USER" rd hdrs)),
     log ++ [missing_header_msg "X_ZATO_USER" rd hdrs])
  else if negb (Py.truthy (hdrs !! "X_ZATO_PASSWORD")) then
    (Py.Raise (Py.HTTPException 403 (missing_header_msg "X_ZATO_PASSWORD" rd hdrs)),
     log ++ [missing_header_msg "X_ZATO_PASSWORD" rd hdrs])
  else
    let user := default "" (hdrs !! "X_ZATO_USER") in
    let secret := default "" (hdrs !! "X_ZATO_PASSWORD") in
    if negb (String.eqb user (Listener.name sd)) then
      (Py.Raise (Py.HTTPException 403 (logged_msg "username or password" rd user)),
       log ++ [logged_msg "username" rd user])
    else if negb (String.eqb (hash_of secret sd) (Listener.password sd)) then
      (Py.Raise (Py.HTTPException 403 (logged_msg "username or password" rd user)),
       log ++ [logged_msg "password" rd user])
    else (Py.Ret tt, log).
Proof.
  unfold Listener._handle_security_tech_account, Listener.zato_headers.
  unfold Py.bind at 1. cbn [Listener.check_zato_headers].
  destruct (Py.truthy (hdrs !! "X_ZATO_USER")) eqn:Hu; cbn [negb].
  2: { reflexivity. }
  destruct (Py.truthy (hdrs !! "X_ZATO_PASSWORD")) eqn:Hp; cbn [negb].
  2: { reflexivity. }
  apply truthy_spec in Hu as (u & Hu & _).
  apply truthy_spec in Hp as (p & Hp & _).
  unfold Py.ret, Py.bind, Py.getitem. rewrite Hu, Hp.
  unfold default, from_option, id, Py.ret.
  destruct (String.eqb u (Listener.name sd)); cbn [negb]; [|reflexivity].
  destruct (String.eqb (hash_of p sd) (Listener.password sd)); reflexivity.
Qed.

Lemma wrap_as_is (url_type : option string) (msg : string) :
  url_type <> Some ZATO_URL_TYPE_SOAP ->
  wrap_error_message url_type msg = Py.Ret msg.
Proof.
  intros Hne. unfold Listener.wrap_error_message.
  destruct (decide (url_type = Some ZATO_URL_TYPE_SOAP)); [contradiction | reflexivity].
Qed.

Lemma header_missing_or_empty_truthy hdrs k :
  Listener.header_missing_or_empty hdrs k <-> Py.truthy (hdrs !! k) = false.
Proof.
  unfold Listener.header_missing_or_empty.
  destruct (hdrs !! k) as [[|c s]|]; simpl; split; intros H;
    try discriminate; auto; destruct H; discriminate.
Qed.

Local Abbreviation not_found_msg rd :=
  (Py.format
     "The URL [{0}] doesn't exist or has no security configuration assigned"
     [Listener.uri rd]).

Lemma content_headers t ct cl :
  let t' :=
    Listener.set_response_header
      (Listener.set_response_header t "Content-Type" ct) "Content-Length" cl in
  Listener.response_headers t' !! "Content-Type" = Some ct
  /\ Listener.response_headers t' !! "Content-Length" = Some cl.
Proof.
  cbn. split.
  - rewrite lookup_insert_ne by discriminate. apply lookup_insert_eq.
  - apply lookup_insert_eq.
Qed.

Lemma getattr_self_missing kind log :
  Py.replace "-" "_" kind <> "tech_account" ->
  Listener.getattr_self sha256_hexdigest str_of_headers
    ("_handle_security_" +:+ Py.replace "-" "_" kind) log
  = (Py.Raise (Py.AttributeError
                 ("_handle_security_" +:+ Py.replace "-" "_" kind)), log).
Proof.
  intros Hne. unfold Listener.getattr_self.
  replace (String.eqb ("_handle_security_" +:+ Py.replace "-" "_" kind)
             "_handle_security_tech_account")
    with (String.eqb (Py.replace "-" "_" kind) "tech_account")
    by reflexivity.
  destruct (String.eqb_spec (Py.replace "-" "_" kind) "tech_account");
    [contradiction | reflexivity].
Qed.

(** C10.  When the URI is in the table but no validator method exists for
    the policy's [sec_def_type], the attribute lookup raises; the generic
    [except] clause logs the traceback and the response keeps the status
    and reason the task had (so it is not turned into a 403); the body is
    the traceback, passed through [wrap_error_message]. *)
Theorem executeRequest_unknown_scheme server task ctx log ud response :
  Listener.url_security server !! Listener.uri (Listener.request_data task)
    = Some ud ->
  Py.replace "-" "_" (Listener.sec_def_type ud) <> "tech_account" ->
  wrap_error_message (Some (Listener.url_type ud))
    (format_exc
       (Py.AttributeError
          ("_handle_security_"
             +:+ Py.replace "-" "_" (Listener.sec_def_type ud))))
    = Py.Ret response ->
  exists task',
    executeRequest server task ctx log
      = (Py.Ret task',
         log ++ [Py.format "Exception caught [{0}]"
                   [format_exc
                      (Py.AttributeError
                         ("_handle_security_"
                            +:+ Py.replace "-" "_" (Listener.sec_def_type ud)))]])
    /\ Listener.status task' = Listener.status task
    /\ Listener.reason task' = Listener.reason task
    /\ Listener.written task' = Listener.written task ++ [response]
    /\ (Listener.url_type ud <> ZATO_URL_TYPE_SOAP ->
        response
        = format_exc
            (Py.AttributeError
               ("_handle_security_"
                  +:+ Py.replace "-" "_" (Listener.sec_def_type ud)))).
Proof.
  intros Hin Hkind Hwrap.
  unfold Listener.executeRequest, Listener.try_block.
  rewrite Hin. unfold Listener.handle_security, Py.bind.
  rewrite getattr_self_missing by assumption.
  cbn [Listener.except_clauses]. rewrite Hwrap.
  eexists. split; [reflexivity|]. repeat split.
  intros Hplain. rewrite wrap_as_is in Hwrap by congruence.
  congruence.
Qed.

End ListenerProperties.



Lemma executeRequest_unknown_scheme_witness :
  exists task',
    fst (Sample.run "basic_auth" "/svc" (Sample.credentials "u" "secret"))
    = Py.Ret task'
    /\ Listener.status task' = 200%Z
    /\ Listener.written task' = ["AttributeError: _handle_security_basic_auth"].
Proof.
  destruct (executeRequest_unknown_scheme Sample.digest Sample.format_exc
              Sample.str_of_headers Sample.soap Sample.server_soap_error unit
              (Sample.server "basic_auth")
              (Listener.new_task
                 (Sample.request "/svc" (Sample.credentials "u" "secret")))
              tt []
              {| Listener.url_type := Common.URL_TYPE.PLAIN_HTTP;
                 Listener.sec_def := Sample.sec_def;
                 Listener.sec_def_type := "basic_auth" |}
              "AttributeError: _handle_security_basic_auth")
    as (task' & Hrun & Hst & _ & Hw & _).
  - vm_compute; reflexivity.
  - vm_compute; discriminate.
  - vm_compute; reflexivity.
  - exists task'. unfold Sample.run. rewrite Hrun. auto.
Defined.

Section DispatcherProperties.

Context {Work : Type}.
Implicit Types (d : Dispatcher.TaskDispatcher Work) (p : Dispatcher.Pool Work).
Implicit Types (ths : gmap nat nat) (q : list (option Work)).

Lemma next_free_scan fuel ths t :
  let r := Dispatcher.next_free fuel ths t in
  (t <= r)%nat
  /\ (forall j, (t <= j < r)%nat -> j ∈ dom ths)
  /\ (r ∉ dom ths \/ r = (t + fuel)%nat).
Proof.
  revert t. induction fuel as [|fuel IH]; intros t; cbn.
  - repeat split; [lia | intros; lia | right; lia].
  - destruct (decide (is_Some (ths !! t))) as [Hin | Hout].
    + destruct (IH (S t)) as (Hle & Hall & Hend).
      repeat split; [lia | | destruct Hend; [auto | right; lia]].
      intros j Hj. destruct (decide (j = t)) as [-> | Hne].
      * by apply elem_of_dom.
      * apply Hall. lia.
    + repeat split; [lia | intros; lia |].
      left. by rewrite elem_of_dom.
Qed.

Lemma interval_in_table ths t k :
  (forall j, (t <= j < t + k)%nat -> j ∈ dom ths) -> (k <= size ths)%nat.
Proof.
  intros Hall. rewrite <- size_dom.
  rewrite <- (size_set_seq (C := gset nat) t k).
  apply subseteq_size. intros j Hj. apply elem_of_set_seq in Hj.
  apply Hall. lia.
Qed.

(** The inner loop ends on a number that is not in the table. *)
Lemma next_free_least ths t :
  (forall j, (j < t)%nat -> j ∈ dom ths) ->
  Dispatcher.least_free (dom ths)
    (Dispatcher.next_free (S (size ths)) ths t).
Proof.
  intros Hbelow.
  destruct (next_free_scan (S (size ths)) ths t) as (Hle & Hall & Hend).
  set (r := Dispatcher.next_free (S (size ths)) ths t) in *.
  assert (Hfree : r ∉ dom ths).
  { destruct Hend as [? | Hr]; [done |].
    exfalso. pose proof (interval_in_table ths t (S (size ths))) as Hk.
    rewrite <- Hr in Hk. specialize (Hk Hall). lia. }
  split; [done |]. intros j Hj.
  destruct (decide (j < t)%nat); [auto | apply Hall; lia].
Qed.

Lemma start_threads_spec fuel ths t running count started :
  fuel = Z.to_nat (count - running) ->
  (forall j, (j < t)%nat -> j ∈ dom ths) ->
  (forall i v, ths !! i = Some v -> v = 1%nat) ->
  exists ths' t' new,
    Dispatcher.start_threads fuel ths t running count started
    = (ths', t', (running + Z.of_nat (length new))%Z, started ++ new)
    /\ length new = fuel
    /\ Dispatcher.least_free_sequence (dom ths) new
    /\ dom ths' = list_to_set new ∪ dom ths
    /\ size ths' = (size ths + length new)%nat
    /\ (forall i v, ths' !! i = Some v -> v = 1%nat).
Proof.
  revert ths t running started.
  induction fuel as [|fuel IH]; intros ths t running started Hfuel Hbelow Hones.
  - exists ths, t, []. cbn. rewrite Z.add_0_r, app_nil_r, Nat.add_0_r.
    repeat split; auto. set_solver.
  - cbn [Dispatcher.start_threads].
    assert (Hlt : (running <? count)%Z = true) by (apply Z.ltb_lt; lia).
    rewrite Hlt.
    pose proof (next_free_least ths t Hbelow) as Hleast.
    set (r := Dispatcher.next_free (S (size ths)) ths t) in *.
    destruct Hleast as [Hfree Hsmaller].
    destruct (IH (<[r := 1%nat]> ths) (S r) (running + 1)%Z (started ++ [r]))
      as (ths' & t' & new & Hrun & Hlen & Hseq & Hdom & Hsize & Hones').
    + lia.
    + intros j Hj. rewrite dom_insert_L.
      destruct (decide (j = r)) as [-> | Hne]; [set_solver |].
      apply elem_of_union_r, Hsmaller. lia.
    + intros i v. rewrite lookup_insert.
      destruct (decide (r = i)); [by intros [= <-] | apply Hones].
    + exists ths', t', (r :: new). rewrite Hrun.
      split; [f_equal; [f_equal; cbn [length]; lia | by rewrite <- app_assoc] |].
      rewrite dom_insert_L in Hseq, Hdom.
      rewrite map_size_insert_None in Hsize
        by (by apply not_elem_of_dom).
      repeat split; cbn [length list_to_set]; auto; try lia.
      rewrite Hdom. set_solver.
Qed.

(** One call of [setThreadCount], whatever the count asked for. *)
Lemma setThreadCount_spec d count :
  (forall i v, Dispatcher.threads d !! i = Some v -> v = 1%nat) ->
  exists ths' started,
    Dispatcher.setThreadCount d count
    = ({| Dispatcher.threads := ths';
          Dispatcher.stop_count :=
            (Dispatcher.stop_count d
             + Z.max 0 (Dispatcher.running d - count))%Z;
          Dispatcher.queue :=
            Dispatcher.queue d
              ++ replicate (Z.to_nat (Dispatcher.running d - count)) None |},
       started)
    /\ length started = Z.to_nat (count - Dispatcher.running d)
    /\ Dispatcher.least_free_sequence (dom (Dispatcher.threads d)) started
    /\ dom ths' = list_to_set started ∪ dom (Dispatcher.threads d)
    /\ size ths' = (size (Dispatcher.threads d) + length started)%nat
    /\ (forall i v, ths' !! i = Some v -> v = 1%nat).
Proof.
  intros Hones. unfold Dispatcher.setThreadCount.
  fold (Dispatcher.running d).
  destruct (start_threads_spec
              (Z.to_nat (count - Dispatcher.running d))
              (Dispatcher.threads d) 0 (Dispatcher.running d) count [])
    as (ths' & t' & new & Hrun & Hlen & Hseq & Hdom & Hsize & Hones');
    [reflexivity | intros; lia | assumption |].
  rewrite Hrun. cbn [app]. exists ths', new.
  split; [| by auto].
  rewrite Hlen.
  destruct (Z.gtb_spec
              (Dispatcher.running d
               + Z.of_nat (Z.to_nat (count - Dispatcher.running d)))
              count) as [Hgt | Hle].
  - do 3 f_equal; [lia | f_equal; lia].
  - do 2 f_equal; [lia |].
    replace (Z.to_nat (Dispatcher.running d - count)) with O by lia.
    cbn. by rewrite app_nil_r.
Qed.

Lemma sentinels_app q1 q2 :
  Dispatcher.sentinels (q1 ++ q2)
  = (Dispatcher.sentinels q1 + Dispatcher.sentinels q2)%nat.
Proof. induction q1 as [|[t|] q1 IH]; cbn; auto. Qed.

Lemma tasks_app q1 q2 :
  Dispatcher.tasks (q1 ++ q2) = Dispatcher.tasks q1 ++ Dispatcher.tasks q2.
Proof. induction q1 as [|[t|] q1 IH]; cbn; auto. by rewrite IH. Qed.

Lemma sentinels_replicate k :
  Dispatcher.sentinels (replicate k (@None Work)) = k.
Proof. induction k; cbn; auto. Qed.

Lemma tasks_replicate k : Dispatcher.tasks (replicate k (@None Work)) = [].
Proof. induction k; cbn; auto. Qed.

Lemma step_consistent p s p' :
  Dispatcher.consistent p ->
  Dispatcher.step p s = Some p' ->
  Dispatcher.consistent p' /\ Dispatcher.step_effect p s p'.
Proof.
  intros (Hones & Hsub & Hstop) Hstep.
  destruct p as [d lv sv]. cbn [Dispatcher.dispatcher Dispatcher.leaving
    Dispatcher.serviced] in *.
  unfold Dispatcher.step_effect, Dispatcher.consistent, Dispatcher.running.
  destruct s as [count | task | i | i]; cbn in Hstep.
  - (* setThreadCount *)
    destruct (setThreadCount_spec d count Hones)
      as (ths' & started & Hcall & Hlen & _ & Hdom & Hsize & Hones').
    rewrite Hcall in Hstep. injection Hstep as <-. cbn.
    rewrite sentinels_app, sentinels_replicate, tasks_app, tasks_replicate.
    rewrite !app_nil_r. unfold Dispatcher.running in *.
    repeat split; auto; try lia.
    rewrite Hdom. set_solver.
  - (* queue.put(task) *)
    injection Hstep as <-. cbn.
    rewrite sentinels_app, tasks_app. cbn.
    repeat split; auto; lia.
  - (* one turn of the worker loop *)
    unfold Dispatcher.in_loop, Dispatcher.registered in Hstep.
    cbn in Hstep.
    destruct (bool_decide_reflect (is_Some (Dispatcher.threads d !! i)))
      as [[v Hv] |]; [| discriminate].
    destruct (bool_decide_reflect (i ∈ lv)) as [| Hout]; [discriminate |].
    cbn in Hstep. rewrite Hv in Hstep. rewrite (Hones i v Hv) in Hstep.
    destruct (Dispatcher.queue d) as [|[task|] rest] eqn:Hq;
      [discriminate | |]; injection Hstep as <-; cbn in *.
    + rewrite Hq. cbn. rewrite !app_nil_r, <- app_assoc.
      repeat split; auto.
    + rewrite Hq. cbn. rewrite !app_nil_r.
      rewrite size_union by set_solver. rewrite size_singleton.
      repeat split; auto; try lia.
      apply union_least; [| done].
      apply singleton_subseteq_l, elem_of_dom. eauto.
  - (* the finally block *)
    destruct (bool_decide_reflect (i ∈ lv)) as [Hin |]; [| discriminate].
    injection Hstep as <-. cbn.
    assert (Hdom : i ∈ dom (Dispatcher.threads d)) by auto.
    apply elem_of_dom in Hdom.
    rewrite map_size_delete_Some by done.
    rewrite size_difference by set_solver. rewrite size_singleton.
    assert (size lv <> 0)%nat.
    { intros H0. apply size_empty_inv in H0. set_solver. }
    assert (size (Dispatcher.threads d) <> 0)%nat.
    { apply map_size_ne_0_lookup_2 with i. done. }
    repeat split; try lia.
    + intros j v. rewrite lookup_delete.
      destruct (decide (i = j)); [done | apply Hones].
    + rewrite dom_delete_L. set_solver.
    + by rewrite app_nil_r.
Qed.

Lemma run_consistent steps p p' :
  Dispatcher.consistent p ->
  Dispatcher.run p steps = Some p' ->
  Dispatcher.consistent p'
  /\ Dispatcher.running (Dispatcher.dispatcher p')
     = Dispatcher.last_resize
         (Dispatcher.running (Dispatcher.dispatcher p)) steps
  /\ Dispatcher.serviced p'
       ++ Dispatcher.tasks (Dispatcher.queue (Dispatcher.dispatcher p'))
     = Dispatcher.serviced p
         ++ Dispatcher.tasks (Dispatcher.queue (Dispatcher.dispatcher p))
         ++ Dispatcher.added_tasks steps.
Proof.
  revert p. induction steps as [|s steps IH]; intros p Hcons Hrun.
  - injection Hrun as <-. cbn. by rewrite !app_nil_r.
  - cbn [Dispatcher.run] in Hrun.
    destruct (Dispatcher.step p s) as [p1|] eqn:Hstep; [| discriminate].
    destruct (step_consistent p s p1 Hcons Hstep) as (Hcons1 & Hrun1 & Htasks1).
    destruct (IH p1 Hcons1 Hrun) as (Hcons2 & Hrun2 & Htasks2).
    split; [done |]. split.
    + rewrite Hrun2, Hrun1. by destruct s.
    + rewrite Htasks2, app_assoc, Htasks1.
      destruct s; cbn; rewrite ?app_nil_r, <- ?app_assoc; auto.
Qed.


End DispatcherProperties.

Lemma empty_pool_consistent : Dispatcher.consistent Sample.empty_pool.
Proof.
  repeat split.
  - intros i v. cbn. by rewrite lookup_empty.
  - cbn. set_solver.
Qed.


Section ClientProperties.

Variable handler : string -> option Py.exn.
Variable format_exc : Py.exn -> string.

Local Abbreviation react := (Client.react handler format_exc).
Local Abbreviation run := (Client.run handler format_exc).
Local Abbreviation dispatch := (Client.dispatch handler format_exc).

Lemma close_flag s : Client.keep_running (fst (Client.close s)) = false.
Proof. unfold Client.close. by destruct (Client.socket s). Qed.

Lemma close_close s :
  fst (Client.close (fst (Client.close s))) = fst (Client.close s).
Proof. unfold Client.close. by destruct (Client.socket s). Qed.

Lemma run_poll_intervals l n :
  run l (replicate n Client.PollInterval) = l.
Proof.
  induction n as [|n IH]; [reflexivity |]. cbn.
  replace (react l Client.PollInterval) with l; [exact IH |].
  unfold Client.react. by destruct (Client.position l).
Qed.


End ClientProperties.



(** C6, at a message whose handler raises.  The hooks and the handler are
    called in order and the loop goes on to the next message, but the name
    [msg] is bound again to the log template before it is used: the logged
    line holds the template in the place of the message, and the
    post-handler hook is called with the template, not with the message. *)
Theorem listen_handler_error_rebinds_msg :
  let template := "Could not invoke the message handler, msg [{0}] e [{1}]" in
  let listening :=
    Client.run Sample.handler Sample.format_exc
      (Client.listen (Client.__init__ "tcp://broker:5001"))
      [Client.Message "boom"; Client.Message "ok"] in
  Client.position listening = Client.InPoll
  /\ Client.trace listening
     = [ Client.on_before_msg_handler "boom";
         Client.on_message_handler "boom";
         Client.logger_error
           "Could not invoke the message handler, msg [Could not invoke the message handler, msg [{0}] e [{1}]] e [Exception: bad payload]";
         Client.on_after_msg_handler template
           (Some (Py.OtherError "bad payload"));
         Client.on_before_msg_handler "ok";
         Client.on_message_handler "ok";
         Client.on_after_msg_handler "ok" None ].
Proof. cbv zeta. split; vm_compute; reflexivity. Qed.

(** C9.  The worker addresses are the base port plus the offsets 0 and 1 of
    the table.  The two singleton ports are the base port plus 2 and plus 3:
    neither is the base port plus one of the two singleton offsets of the
    table (10 and 11), and 3 is not an offset of the table at all.  The
    offsets of the table are pairwise distinct. *)
Theorem after_init_common_singleton_ports_off_table (c : Server.Cluster) :
  let base := Server.broker_start_port c in
  let cfg := Server._after_init_common c true in
  Server.port (Server.broker_push_addr cfg)
  = (base + Common.PORTS.BROKER_PUSH_WORKER_THREAD_PULL)%Z
  /\ Server.port (Server.broker_pull_addr cfg)
     = (base + Common.PORTS.WORKER_THREAD_PUSH_BROKER_PULL)%Z
  /\ Server.singleton cfg
     = Some {| Server.kw_broker_host := Server.broker_host c;
               Server.broker_push_port := (base + 2)%Z;
               Server.broker_sub_port := (base + 3)%Z;
               Server.kw_broker_token := Server.broker_token c |}
  /\ (base + 2)%Z <> (base + Common.PORTS.BROKER_PUSH_SINGLETON_PULL)%Z
  /\ (base + 3)%Z <> (base + Common.PORTS.SINGLETON_PUSH_BROKER_PULL)%Z
  /\ (forall entry, entry ∈ Common.PORTS.items -> (base + 3)%Z <> (base + entry.2)%Z)
  /\ NoDup (Common.PORTS.items.*2).
Proof.
  cbv zeta. cbn. repeat split; try (unfold Common.PORTS.BROKER_PUSH_WORKER_THREAD_PULL,
    Common.PORTS.WORKER_THREAD_PUSH_BROKER_PULL,
    Common.PORTS.BROKER_PUSH_SINGLETON_PULL,
    Common.PORTS.SINGLETON_PUSH_BROKER_PULL; lia).
  - intros entry Hin Heq.
    assert (Hoff : entry.2 = 3%Z) by lia.
    unfold Common.PORTS.items in Hin.
    repeat (apply elem_of_cons in Hin as [-> | Hin]; [cbn in Hoff; discriminate |]).
    by apply elem_of_nil in Hin.
  - apply (bool_decide_unpack _). vm_compute. exact I.
Qed.

(* ===================================================================== *)
(** * Further properties of the HTTP listener *)
(* ===================================================================== *)

Section ListenerFurther.

Variable sha256_hexdigest : string -> string.
Variable format_exc : Py.exn -> string.
Variable str_of_headers : gmap string string -> string.
Variable ZATO_URL_TYPE_SOAP : string.
Variable server_soap_error : string -> Py.result string.
Variable ThreadCtx : Type.

Local Abbreviation wrap_error_message :=
  (Listener.wrap_error_message ZATO_URL_TYPE_SOAP server_soap_error).
Local Abbreviation tech_account :=
  (Listener._handle_security_tech_account sha256_hexdigest str_of_headers).
Local Abbreviation handle_security :=
  (Listener.handle_security sha256_hexdigest str_of_headers).
Local Abbreviation executeRequest :=
  (Listener.executeRequest sha256_hexdigest format_exc str_of_headers
     ZATO_URL_TYPE_SOAP server_soap_error ThreadCtx).
Local Abbreviation refused :=
  (Listener.credentials_refused sha256_hexdigest).
Local Abbreviation respond task url_type response :=
  (Listener.write
     (Listener.set_response_header
        (Listener.set_response_header task "Content-Type"
           (Listener.content_type_of ZATO_URL_TYPE_SOAP url_type))
        "Content-Length" (Py.str (String.length response)))
     response).

Lemma handler_name_eqb kind :
  String.eqb ("_handle_security_" +:+ Py.replace "-" "_" kind)
    "_handle_security_tech_account"
  = String.eqb (Py.replace "-" "_" kind) "tech_account".
Proof. reflexivity. Qed.

Lemma handle_security_by_name ud rd body hdrs log :
  handle_security ud rd body hdrs log
  = if decide (Py.replace "-" "_" (Listener.sec_def_type ud) = "tech_account")
    then tech_account (Listener.sec_def ud) rd body hdrs log
    else (Py.Raise
            (Py.AttributeError
               ("_handle_security_"
                  +:+ Py.replace "-" "_" (Listener.sec_def_type ud))), log).
Proof.
  unfold Listener.handle_security, Py.bind, Listener.getattr_self.
  rewrite handler_name_eqb.
  destruct (String.eqb_spec (Py.replace "-" "_" (Listener.sec_def_type ud))
              "tech_account") as [Heq | Hne];
    destruct (decide _); try contradiction; reflexivity.
Qed.

Lemma tech_account_accepts sd rd body hdrs log :
  ~ refused sd hdrs -> tech_account sd rd body hdrs log = (Py.Ret tt, log).
Proof.
  intros Hok. rewrite tech_account_unfold.
  unfold Listener.credentials_refused in Hok.
  rewrite !header_missing_or_empty_truthy in Hok.
  destruct (Py.truthy (hdrs !! "X_ZATO_USER")) eqn:Hu;
    [| exfalso; apply Hok; auto].
  destruct (Py.truthy (hdrs !! "X_ZATO_PASSWORD")) eqn:Hp;
    [| exfalso; apply Hok; auto].
  apply truthy_spec in Hu as (u & Hu & _).
  apply truthy_spec in Hp as (p & Hp & _).
  rewrite Hu, Hp. cbn [negb default from_option id].
  destruct (String.eqb_spec u (Listener.name sd)) as [_ | Hne];
    [| exfalso; apply Hok; eauto 7].
  destruct (String.eqb_spec
              (sha256_hexdigest (p +:+ ":" +:+ Listener.salt sd))
              (Listener.password sd)) as [_ | Hne];
    [reflexivity | exfalso; apply Hok; eauto 7].
Qed.



End ListenerFurther.

Lemma sample_credentials_accepted :
  ~ Listener.credentials_refused Sample.digest Sample.sec_def
      (Sample.credentials "u" "secret").
Proof.
  intros [[H|H] | [[H|H] | [(u & H & Hne) | (q & H & Hne)]]];
    vm_compute in H; try discriminate;
    injection H as <-; apply Hne; reflexivity.
Qed.



(* ===================================================================== *)
(** * Further properties of the subscriber loop *)
(* ===================================================================== *)

Section ClientFurther.

Variable handler : string -> option Py.exn.
Variable format_exc : Py.exn -> string.

Local Abbreviation react := (Client.react handler format_exc).
Local Abbreviation run := (Client.run handler format_exc).
Local Abbreviation dispatch := (Client.dispatch handler format_exc).

Lemma run_messages s tr msgs :
  Client.keep_running s = true ->
  run (Client.loop_head s tr) (Client.Message <$> msgs)
  = Client.loop_head s (tr ++ concat (dispatch <$> msgs)).
Proof.
  intros Hrun. revert tr. induction msgs as [|m msgs IH]; intros tr.
  - cbn. by rewrite app_nil_r.
  - cbn [fmap list_fmap concat Client.run fold_left].
    replace (react (Client.loop_head s tr) (Client.Message m))
      with (Client.loop_head s (tr ++ dispatch m)).
    + fold (run (Client.loop_head s (tr ++ dispatch m))
              (Client.Message <$> msgs)).
      rewrite IH. by rewrite <- app_assoc.
    + unfold Client.react, Client.loop_head. cbn. by rewrite Hrun.
Qed.


Lemma react_ended l i :
  Client.position l <> Client.InPoll ->
  Client.position (react l i) = Client.position l
  /\ Client.trace (react l i) = Client.trace l.
Proof.
  intros Hpos. unfold Client.react.
  destruct i; destruct (Client.position l) eqn:Hp; try contradiction;
    cbn; auto.
Qed.

Lemma run_ended l inputs :
  Client.position l <> Client.InPoll ->
  Client.position (run l inputs) = Client.position l
  /\ Client.trace (run l inputs) = Client.trace l.
Proof.
  revert l. induction inputs as [|i inputs IH]; intros l Hpos; [auto |].
  cbn [Client.run fold_left].
  destruct (react_ended l i Hpos) as [Hp Ht].
  fold (run (react l i) inputs).
  destruct (IH (react l i)) as [Hp' Ht']; [congruence |].
  split; congruence.
Qed.

(** X8.  A transport error while polling is logged once and ends the loop:
    [close] is called, so the flag is false; with no [socket] attribute on
    the object that call raises AttributeError, which leaves [listen],
    otherwise the socket is closed and the loop stops.  No later message
    is handled. *)
Theorem transport_error_ends_loop l strerror inputs :
  Client.position l = Client.InPoll ->
  let l' := react l (Client.TransportError strerror) in
  Client.trace l'
  = Client.trace l
      ++ [Client.logger_error
            (Py.format "Caught ZMQError [{0}], quitting." [strerror])]
  /\ Client.keep_running (Client.sub l') = false
  /\ Client.position l'
     = match Client.socket (Client.sub l) with
       | None => Client.Died (Py.AttributeError "socket")
       | Some _ => Client.Stopped
       end
  /\ Client.socket (Client.sub l')
     = match Client.socket (Client.sub l) with
       | None => None
       | Some _ => Some true
       end
  /\ Client.trace (run l' inputs) = Client.trace l'
  /\ Client.position (run l' inputs) = Client.position l'.
Proof.
  intros Hpos. cbv zeta.
  assert (Hended : Client.position (react l (Client.TransportError strerror))
                   <> Client.InPoll).
  { unfold Client.react, Client.close. rewrite Hpos.
    destruct (Client.socket (Client.sub l)); cbn; discriminate. }
  destruct (run_ended _ inputs Hended) as [Hp Ht].
  repeat split; try assumption;
    unfold Client.react, Client.close; rewrite Hpos;
    destruct (Client.socket (Client.sub l)); reflexivity.
Qed.


End ClientFurther.


Lemma transport_error_ends_loop_witness :
  Client.position
    (Client.react Sample.handler Sample.format_exc
       (Client.listen (Client.__init__ "tcp://broker:5001"))
       (Client.TransportError "Context was terminated"))
  = Client.Died (Py.AttributeError "socket").
Proof.
  apply (transport_error_ends_loop Sample.handler Sample.format_exc
           (Client.listen (Client.__init__ "tcp://broker:5001"))
           "Context was terminated" []).
  reflexivity.
Defined.


(* ===================================================================== *)
(** * Further properties of the task dispatcher *)
(* ===================================================================== *)

Section DispatcherFurther.

Context {Work : Type}.
Implicit Types (d : Dispatcher.TaskDispatcher Work).
Implicit Types (ths : gmap nat nat).

Lemma start_threads_grows fuel ths t running count started :
  fuel = Z.to_nat (count - running) ->
  (forall j, (j < t)%nat -> j ∈ dom ths) ->
  exists ths' t' new,
    Dispatcher.start_threads fuel ths t running count started
    = (ths', t', (running + Z.of_nat (length new))%Z, started ++ new)
    /\ length new = fuel
    /\ Dispatcher.least_free_sequence (dom ths) new
    /\ ths ⊆ ths'
    /\ dom ths' = list_to_set new ∪ dom ths
    /\ size ths' = (size ths + length new)%nat
    /\ (forall i, i ∈ new -> ths' !! i = Some 1%nat).
Proof.
  revert ths t running started.
  induction fuel as [|fuel IH]; intros ths t running started Hfuel Hbelow.
  - exists ths, t, []. cbn. rewrite Z.add_0_r, app_nil_r, Nat.add_0_r.
    repeat split; auto; [set_solver | intros i Hi; by apply elem_of_nil in Hi].
  - cbn [Dispatcher.start_threads].
    assert (Hlt : (running <? count)%Z = true) by (apply Z.ltb_lt; lia).
    rewrite Hlt.
    pose proof (next_free_least ths t Hbelow) as Hleast.
    set (r := Dispatcher.next_free (S (size ths)) ths t) in *.
    destruct Hleast as [Hfree Hsmaller].
    assert (Hnone : ths !! r = None) by (by apply not_elem_of_dom).
    destruct (IH (<[r := 1%nat]> ths) (S r) (running + 1)%Z (started ++ [r]))
      as (ths' & t' & new & Hrun & Hlen & Hseq & Hsub & Hdom & Hsize & Hnew).
    + lia.
    + intros j Hj. rewrite dom_insert_L.
      destruct (decide (j = r)) as [-> | Hne]; [set_solver |].
      apply elem_of_union_r, Hsmaller. lia.
    + exists ths', t', (r :: new). rewrite Hrun.
      split; [f_equal; [f_equal; cbn [length]; lia | by rewrite <- app_assoc] |].
      rewrite dom_insert_L in Hseq, Hdom.
      rewrite map_size_insert_None in Hsize by done.
      repeat split; cbn [length list_to_set]; auto; try lia.
      * etransitivity; [| exact Hsub]. by apply insert_subseteq.
      * rewrite Hdom. set_solver.
      * intros i Hi. apply elem_of_cons in Hi as [-> | Hi]; [| auto].
        eapply lookup_weaken; [| exact Hsub]. apply lookup_insert_eq.
Qed.

(** What one call does, for any dispatcher and any count. *)
Lemma setThreadCount_effect d count :
  exists ths' started,
    Dispatcher.setThreadCount d count
    = ({| Dispatcher.threads := ths';
          Dispatcher.stop_count :=
            (Dispatcher.stop_count d
             + Z.max 0 (Dispatcher.running d - count))%Z;
          Dispatcher.queue :=
            Dispatcher.queue d
              ++ replicate (Z.to_nat (Dispatcher.running d - count)) None |},
       started)
    /\ length started = Z.to_nat (count - Dispatcher.running d)
    /\ Dispatcher.least_free_sequence (dom (Dispatcher.threads d)) started
    /\ Dispatcher.threads d ⊆ ths'
    /\ dom ths' = list_to_set started ∪ dom (Dispatcher.threads d)
    /\ size ths' = (size (Dispatcher.threads d) + length started)%nat
    /\ (forall i, i ∈ started -> ths' !! i = Some 1%nat).
Proof.
  unfold Dispatcher.setThreadCount. fold (Dispatcher.running d).
  destruct (start_threads_grows
              (Z.to_nat (count - Dispatcher.running d))
              (Dispatcher.threads d) 0 (Dispatcher.running d) count [])
    as (ths' & t' & new & Hrun & Hlen & Hrest);
    [reflexivity | intros; lia |].
  rewrite Hrun. cbn [app]. exists ths', new.
  split; [| by auto].
  rewrite Hlen.
  destruct (Z.gtb_spec
              (Dispatcher.running d
               + Z.of_nat (Z.to_nat (count - Dispatcher.running d)))
              count) as [Hgt | Hle].
  - do 3 f_equal; [lia | f_equal; lia].
  - do 2 f_equal; [lia |].
    replace (Z.to_nat (Dispatcher.running d - count)) with O by lia.
    cbn. by rewrite app_nil_r.
Qed.

Lemma running_after d count :
  Dispatcher.running (Dispatcher.setThreadCount d count).1 = count.
Proof.
  destruct (setThreadCount_effect d count)
    as (ths' & started & Hcall & Hlen & _ & _ & _ & Hsize & _).
  rewrite Hcall. unfold Dispatcher.running in *. cbn. lia.
Qed.

(** X10.  Asking again for the count just set changes nothing: no thread is
    started and no stop value is queued. *)
Theorem setThreadCount_twice d count :
  Dispatcher.setThreadCount (Dispatcher.setThreadCount d count).1 count
  = ((Dispatcher.setThreadCount d count).1, []).
Proof.
  pose proof (running_after d count) as Hrun.
  set (d1 := (Dispatcher.setThreadCount d count).1) in *.
  destruct (setThreadCount_effect d1 count)
    as (ths' & started & Hcall & Hlen & _ & Hsub & Hdom & Hsize & _).
  rewrite Hcall, Hrun in *.
  replace (Z.to_nat (count - count)) with O in * by lia.
  apply nil_length_inv in Hlen. subst started.
  assert (ths' = Dispatcher.threads d1) as ->.
  { symmetry. apply map_subseteq_size_eq; [done | cbn in Hsize; lia]. }
  clearbody d1. destruct d1 as [ths sc q]. cbn. rewrite app_nil_r.
  do 2 f_equal. lia.
Qed.

(** X11.  [setThreadCount] only adds: every entry of the thread table is
    kept as it was, the numbers of the threads started are new and pairwise
    distinct and get the value 1, every queued item stays where it was
    (stop values are appended behind it), and [stop_count] does not go
    down. *)
Theorem setThreadCount_only_adds d count :
  let d' := (Dispatcher.setThreadCount d count).1 in
  let started := (Dispatcher.setThreadCount d count).2 in
  Dispatcher.threads d ⊆ Dispatcher.threads d'
  /\ (forall i, i ∈ started ->
        Dispatcher.threads d !! i = None
        /\ Dispatcher.threads d' !! i = Some 1%nat)
  /\ NoDup started
  /\ Dispatcher.queue d `prefix_of` Dispatcher.queue d'
  /\ (Dispatcher.stop_count d <= Dispatcher.stop_count d')%Z.
Proof.
  destruct (setThreadCount_effect d count)
    as (ths' & started & Hcall & Hlen & Hseq & Hsub & Hdom & Hsize & Hnew).
  rewrite Hcall. cbn.
  assert (Hfresh : NoDup started /\
                   forall i, i ∈ started -> i ∉ dom (Dispatcher.threads d)).
  { clear -Hseq. revert Hseq.
    generalize (dom (Dispatcher.threads d)) as used.
    induction started as [|i rest IH]; intros used Hseq.
    - split; [constructor | intros i Hi; by apply elem_of_nil in Hi].
    - destruct Hseq as [[Hfree _] Hrest].
      destruct (IH _ Hrest) as [Hnd Hout].
      split.
      + constructor; [| done]. intros Hin. apply (Hout i Hin). set_solver.
      + intros j Hj. apply elem_of_cons in Hj as [-> | Hj]; [done |].
        intros Hused. apply (Hout j Hj). set_solver. }
  destruct Hfresh as [Hnd Hout].
  repeat split; auto.
  - apply not_elem_of_dom. auto.
  - by eexists.
  - lia.
Qed.

(** X12.  Shrinking by [k] and growing back by [k] does not undo the
    shrink: the [k] stop values stay queued, and [k] new threads are
    started beside the ones that are still to stop. *)
Theorem setThreadCount_shrink_then_grow d (k : nat) :
  let r := Dispatcher.running d in
  let d1 := (Dispatcher.setThreadCount d (r - Z.of_nat k)).1 in
  let d2 := (Dispatcher.setThreadCount d1 r).1 in
  let started := (Dispatcher.setThreadCount d1 r).2 in
  length started = k
  /\ size (Dispatcher.threads d2) = (size (Dispatcher.threads d) + k)%nat
  /\ Dispatcher.queue d2 = Dispatcher.queue d ++ replicate k None
  /\ Dispatcher.stop_count d2 = (Dispatcher.stop_count d + Z.of_nat k)%Z
  /\ Dispatcher.running d2 = r.
Proof.
  cbv zeta.
  pose proof (running_after d (Dispatcher.running d - Z.of_nat k)) as Hrun1.
  destruct (setThreadCount_effect d (Dispatcher.running d - Z.of_nat k))
    as (ths1 & started1 & Hcall1 & Hlen1 & _ & _ & _ & Hsize1 & _).
  rewrite Hcall1 in *. cbn [fst] in *.
  set (d1 := {| Dispatcher.threads := ths1 |}) in *.
  pose proof (running_after d1 (Dispatcher.running d)) as Hrun2.
  destruct (setThreadCount_effect d1 (Dispatcher.running d))
    as (ths2 & started2 & Hcall2 & Hlen2 & _ & _ & _ & Hsize2 & _).
  rewrite Hcall2 in *. cbn [fst snd] in *. rewrite Hrun1 in *.
  replace (Z.to_nat (Dispatcher.running d - Z.of_nat k - Dispatcher.running d))
    with O by lia.
  replace (Z.to_nat (Dispatcher.running d
                     - (Dispatcher.running d - Z.of_nat k))) with k in * by lia.
  replace (Z.to_nat (Dispatcher.running d - Z.of_nat k - Dispatcher.running d))
    with O in * by lia.
  cbn. rewrite app_nil_r. repeat split; try lia; try done.
  - subst d1. cbn in Hsize2. lia.
  - do 2 f_equal. lia.
Qed.

(** X13.  On a dispatcher with an empty thread table and no pending stop,
    [setThreadCount n] starts the threads 0, 1, ..., n-1 in this order, and
    the table then holds exactly these numbers, each with the value 1;
    nothing is queued. *)
Theorem setThreadCount_from_scratch d (n : nat) :
  Dispatcher.threads d = ∅ ->
  Dispatcher.stop_count d = 0%Z ->
  let d' := (Dispatcher.setThreadCount d (Z.of_nat n)).1 in
  (Dispatcher.setThreadCount d (Z.of_nat n)).2 = seq 0 n
  /\ (forall i, Dispatcher.threads d' !! i
                = if decide (i < n)%nat then Some 1%nat else None)
  /\ Dispatcher.stop_count d' = 0%Z
  /\ Dispatcher.queue d' = Dispatcher.queue d.
Proof.
  intros Hempty Hstop. cbv zeta.
  destruct (setThreadCount_effect d (Z.of_nat n))
    as (ths' & started & Hcall & Hlen & Hseq & _ & Hdom & _ & Hnew).
  rewrite Hcall. cbn [fst snd Dispatcher.threads Dispatcher.stop_count
    Dispatcher.queue].
  unfold Dispatcher.running in *. rewrite Hempty, Hstop in *.
  rewrite map_size_empty, dom_empty_L in *.
  replace (Z.to_nat (Z.of_nat n - (Z.of_nat 0 - 0))) with n in Hlen by lia.
  replace (Z.to_nat (Z.of_nat 0 - 0 - Z.of_nat n)) with O by lia.
  assert (Hstarted : started = seq 0 n).
  { rewrite <- Hlen. clear -Hseq.
    assert (Hgen : forall k (l : list nat),
               Dispatcher.least_free_sequence (set_seq (C := gset nat) 0 k) l ->
               l = seq k (length l)).
    { intros k l. revert k. induction l as [|i l IH]; intros k Hl; [done |].
      destruct Hl as [[Hfree Hbelow] Hrest].
      assert (i = k) as ->.
      { destruct (decide (i < k)%nat) as [Hlt | Hge].
        - exfalso. apply Hfree. apply elem_of_set_seq. lia.
        - destruct (decide (k < i)%nat) as [Hgt | ?]; [| lia].
          specialize (Hbelow k Hgt). apply elem_of_set_seq in Hbelow. lia. }
      cbn. f_equal. apply IH.
      replace (set_seq (C := gset nat) 0 (S k))
        with ({[k]} ∪ set_seq (C := gset nat) 0 k); [done |].
      by rewrite set_seq_S_end_union_L. }
    apply (Hgen 0%nat). exact Hseq. }
  subst started. cbn. rewrite app_nil_r.
  repeat split; try lia.
  intros i. destruct (decide (i < n)%nat) as [Hlt | Hge].
  - apply Hnew. apply elem_of_seq. lia.
  - apply not_elem_of_dom. rewrite Hdom.
    rewrite elem_of_union, elem_of_list_to_set, elem_of_seq. set_solver by lia.
Qed.

End DispatcherFurther.

Lemma setThreadCount_from_scratch_witness :
  (Dispatcher.setThreadCount (Worker.new_dispatcher string) 3).2 = [0; 1; 2]%nat.
Proof.
  apply (setThreadCount_from_scratch (Worker.new_dispatcher string) 3);
    reflexivity.
Defined.

(* ===================================================================== *)
(** * Properties of a worker thread run on its own *)
(* ===================================================================== *)

Section WorkerProperties.

Context {Work : Type}.
Variable service : Work -> option Py.exn.
Variable format_exc : Py.exn -> string.

Implicit Types (d : Dispatcher.TaskDispatcher Work).

Local Abbreviation loop := (Worker.loop service format_exc).
Local Abbreviation handlerThread := (Worker.handlerThread service format_exc).
Local Abbreviation failures := (Worker.failures service format_exc).

Lemma loop_tasks (ts : list Work) tail done lines :
  loop true ((Some <$> ts) ++ tail) done lines
  = loop true tail (done ++ ts) (lines ++ failures ts).
Proof.
  revert done lines. induction ts as [|t ts IH]; intros done lines.
  - cbn. by rewrite !app_nil_r.
  - cbn [fmap list_fmap app Worker.loop]. rewrite IH.
    rewrite <- app_assoc. cbn [app]. f_equal.
    unfold Worker.failures. cbn [mbind list_bind].
    destruct (service t); cbn [app]; [by rewrite <- app_assoc |].
    reflexivity.
Qed.



(** X16.  A thread whose number is not in the table (or is there with the
    value 0) takes nothing from the queue and services nothing, but its
    [finally] block still lowers [stop_count] by one. *)
Theorem handlerThread_unregistered d thread_no :
  Dispatcher.registered d thread_no = false ->
  handlerThread d thread_no
  = {| Worker.dispatcher :=
         {| Dispatcher.threads := delete thread_no (Dispatcher.threads d);
            Dispatcher.stop_count := (Dispatcher.stop_count d - 1)%Z;
            Dispatcher.queue := Dispatcher.queue d |};
       Worker.serviced := [];
       Worker.log := [];
       Worker.outcome := Worker.Exited |}.
Proof.
  intros Hreg. unfold Worker.handlerThread. rewrite Hreg.
  by destruct (Dispatcher.queue d).
Qed.

End WorkerProperties.

(* ===================================================================== *)
(** * Properties of the HTTP channel *)
(* ===================================================================== *)

Section ChannelProperties.

Context {T E : Type}.
Variable service_of : T -> option E.

Local Abbreviation service_loop := (Channel.service_loop service_of).
Local Abbreviation service := (Channel.service service_of).

Lemma service_loop_ok (pre ts : list T) running async done :
  (forall x, x ∈ pre -> service_of x = None) ->
  service_loop (pre ++ ts) running async done
  = service_loop ts running async (done ++ pre).
Proof.
  revert done. induction pre as [|x pre IH]; intros done Hok.
  - cbn. by rewrite app_nil_r.
  - cbn [app Channel.service_loop].
    rewrite (Hok x) by apply list_elem_of_here.
    rewrite IH by (intros y Hy; apply Hok; by apply list_elem_of_further).
    by rewrite <- app_assoc.
Qed.

(** X17.  When no task raises, the channel services all its tasks in the
    order they were queued, ends with no task left, [running_tasks] false
    and back in asynchronous mode, and is not handed back to the server. *)
Theorem channel_service_all c :
  (forall x, x ∈ Channel.tasks c -> service_of x = None) ->
  service c
  = {| Channel.channel :=
         {| Channel.tasks := []; Channel.running_tasks := false;
            Channel.is_async := true |};
       Channel.attempted := Channel.tasks c;
       Channel.re_added := 0;
       Channel.propagated := None |}.
Proof.
  intros Hok. unfold Channel.service.
  rewrite <- (app_nil_r (Channel.tasks c)) at 1.
  rewrite service_loop_ok by assumption. reflexivity.
Qed.

(** X18.  When a task raises, the exception leaves [service] and the
    channel is handed back to the server once; the tasks queued behind the
    failing one are still in the channel, in order, and [running_tasks] and
    the mode are as they were. *)
Theorem channel_service_failure c pre t post e :
  Channel.tasks c = pre ++ t :: post ->
  (forall x, x ∈ pre -> service_of x = None) ->
  service_of t = Some e ->
  service c
  = {| Channel.channel :=
         {| Channel.tasks := post;
            Channel.running_tasks := Channel.running_tasks c;
            Channel.is_async := Channel.is_async c |};
       Channel.attempted := pre ++ [t];
       Channel.re_added := 1;
       Channel.propagated := Some e |}.
Proof.
  intros Hts Hok Hfail. unfold Channel.service.
  rewrite Hts, service_loop_ok by assumption.
  cbn. by rewrite Hfail.
Qed.

Lemma service_loop_keeps ts running async done :
  let r := service_loop ts running async done in
  Channel.attempted r ++ Channel.tasks (Channel.channel r) = done ++ ts
  /\ Channel.re_added r
     = match Channel.propagated r with Some _ => 1%nat | None => 0%nat end.
Proof.
  revert done. induction ts as [|t ts IH]; intros done; cbn.
  - auto.
  - destruct (service_of t); cbn.
    + by rewrite <- app_assoc.
    + destruct (IH (done ++ [t])) as [Hk Hr].
      by rewrite Hk, <- app_assoc.
Qed.

(** X19.  Whatever the tasks do, [service] loses none of them and keeps
    their order: the tasks it called followed by the tasks left in the
    channel are the tasks it found; and the channel is handed back to the
    server exactly when an exception leaves [service]. *)
Theorem channel_service_keeps_tasks c :
  let r := service c in
  Channel.attempted r ++ Channel.tasks (Channel.channel r) = Channel.tasks c
  /\ Channel.re_added r
     = match Channel.propagated r with Some _ => 1%nat | None => 0%nat end.
Proof. apply (service_loop_keeps (Channel.tasks c) _ _ []). Qed.

End ChannelProperties.

(** X20.  In a channel whose tasks have [log_socket_errors] off and raise
    nothing but socket errors, a socket error of one task never keeps the
    tasks behind it from being serviced: all tasks are called, nothing
    leaves [service], and each task that met a socket error has its
    connection closed when done. *)
Theorem channel_survives_socket_errors (c : Channel.ServerChannel Channel.HTTPTask) :
  (forall t, t ∈ Channel.tasks c ->
     Channel.log_socket_errors t = false
     /\ forall e, (Channel.try_steps t).1.2 <> Some (Channel.other_error e)) ->
  Channel.attempted
    (Channel.service (fun t => Channel.raised (Channel.task_service t)) c)
  = Channel.tasks c
  /\ Channel.propagated
       (Channel.service (fun t => Channel.raised (Channel.task_service t)) c)
     = None
  /\ forall t, t ∈ Channel.tasks c ->
       (Channel.try_steps t).1.2 = Some Channel.socket_error ->
       Channel.close_when_done (Channel.task_service t) = true.
Proof.
  intros Hts.
  assert (Hquiet : forall t, t ∈ Channel.tasks c ->
             Channel.raised (Channel.task_service t) = None).
  { intros t Ht. destruct (Hts t Ht) as [Hlog Hother].
    unfold Channel.task_service.
    destruct (Channel.try_steps t) as [[cof r] cs]. cbn in Hother.
    destruct r as [[|e]|]; cbn; [by rewrite Hlog | | done].
    by destruct (Hother e). }
  rewrite (channel_service_all _ c Hquiet). cbn.
  repeat split. intros t Ht Hsock.
  unfold Channel.task_service.
  destruct (Channel.try_steps t) as [[cof r] cs]. cbn in Hsock.
  by rewrite Hsock.
Qed.



Lemma handlerThread_unregistered_witness :
  Dispatcher.stop_count
    (Worker.dispatcher
       (Worker.handlerThread Sample.handler Sample.format_exc
          {| Dispatcher.threads := ∅; Dispatcher.stop_count := 0;
             Dispatcher.queue := [Some "ok"] |} 7))
  = (-1)%Z.
Proof.
  rewrite (handlerThread_unregistered Sample.handler Sample.format_exc
             {| Dispatcher.threads := ∅; Dispatcher.stop_count := 0;
                Dispatcher.queue := [Some "ok"] |} 7); reflexivity.
Defined.

Lemma channel_service_all_witness :
  Channel.attempted
    (Channel.service Sample.handler
       {| Channel.tasks := ["a"; "b"]; Channel.running_tasks := true;
          Channel.is_async := false |})
  = ["a"; "b"].
Proof.
  rewrite (channel_service_all Sample.handler
             {| Channel.tasks := ["a"; "b"]; Channel.running_tasks := true;
                Channel.is_async := false |}); [reflexivity |].
  intros x Hx. cbn in Hx.
  apply elem_of_cons in Hx as [-> | Hx]; [reflexivity |].
  apply elem_of_cons in Hx as [-> | Hx]; [reflexivity |].
  by apply elem_of_nil in Hx.
Defined.

Lemma channel_service_failure_witness :
  Channel.tasks
    (Channel.channel
       (Channel.service Sample.handler
          {| Channel.tasks := ["a"; "boom"; "b"]; Channel.running_tasks := true;
             Channel.is_async := false |}))
  = ["b"].
Proof.
  rewrite (channel_service_failure Sample.handler
             {| Channel.tasks := ["a"; "boom"; "b"];
                Channel.running_tasks := true; Channel.is_async := false |}
             ["a"] "boom" ["b"] (Py.OtherError "bad payload"));
    [reflexivity | reflexivity | | reflexivity].
  intros x Hx. apply elem_of_cons in Hx as [-> | Hx]; [reflexivity |].
  by apply elem_of_nil in Hx.
Defined.

Lemma channel_survives_socket_errors_witness :
  Channel.propagated
    (Channel.service (fun t => Channel.raised (Channel.task_service t))
       {| Channel.tasks :=
            [ {| Channel.start := fun c => (c, None);
                 Channel.executeRequest :=
                   fun c => (c, Some Channel.socket_error);
                 Channel.finish := fun c => (c, None);
                 Channel.close_on_finish := false;
                 Channel.log_socket_errors := false |} ];
          Channel.running_tasks := true; Channel.is_async := false |})
  = None.
Proof.
  apply channel_survives_socket_errors.
  intros t Ht. cbn in Ht.
  apply elem_of_cons in Ht as [-> | Ht]; [| by apply elem_of_nil in Ht].
  split; [reflexivity | intros e; cbn; discriminate].
Defined.

(* ===================================================================== *)
(** * Properties of StatsElem *)
(* ===================================================================== *)

Section StatsProperties.

Context {Others : Type}.
Implicit Types (a b c : Stats.StatsElem Others).

(** X21.  Merging with [+=] can be grouped at will: [(a += b) += c] and
    [a += (b += c)] leave the same element; and in the three merged
    attributes the order of the two operands does not matter. *)
Theorem iadd_assoc_comm a b c :
  Stats.__iadd__ (Stats.__iadd__ a b) c = Stats.__iadd__ a (Stats.__iadd__ b c)
  /\ Stats.usage (Stats.__iadd__ a b) = Stats.usage (Stats.__iadd__ b a)
  /\ Stats.min_resp_time (Stats.__iadd__ a b)
     = Stats.min_resp_time (Stats.__iadd__ b a)
  /\ Stats.max_resp_time (Stats.__iadd__ a b)
     = Stats.max_resp_time (Stats.__iadd__ b a).
Proof.
  unfold Stats.__iadd__. cbn. repeat split; try lia.
  f_equal; lia.
Qed.

(** X22.  Adding a freshly created element changes nothing, provided the
    element added to has a maximum that is not negative and a minimum that
    does not exceed [maxint]. *)
Theorem iadd_fresh maxint a (o : Others) :
  (0 <= Stats.max_resp_time a)%Z ->
  (Stats.min_resp_time a <= maxint)%Z ->
  Stats.__iadd__ a (Stats.__init__ maxint o) = a.
Proof.
  intros Hmax Hmin. destruct a as [u mn mx ot].
  unfold Stats.__iadd__, Stats.__init__. cbn in *. f_equal; lia.
Qed.

(** X23.  The merged minimum is the smaller of the two minimums, so it is
    below both; the merged maximum is above both; and when each operand has
    its minimum below its maximum, so has the result.  The name and the
    other attributes are those of the left operand. *)
Theorem iadd_bounds a b :
  let r := Stats.__iadd__ a b in
  (Stats.min_resp_time r <= Stats.min_resp_time a)%Z
  /\ (Stats.min_resp_time r <= Stats.min_resp_time b)%Z
  /\ (Stats.max_resp_time a <= Stats.max_resp_time r)%Z
  /\ (Stats.max_resp_time b <= Stats.max_resp_time r)%Z
  /\ ((Stats.min_resp_time a <= Stats.max_resp_time a)%Z ->
      (Stats.min_resp_time b <= Stats.max_resp_time b)%Z ->
      (Stats.min_resp_time r <= Stats.max_resp_time r)%Z)
  /\ Stats.others r = Stats.others a.
Proof. cbn. repeat split; lia. Qed.

End StatsProperties.

Section StatsAttributes.

Context {Value : Type}.
Implicit Types (self : gmap string (Stats.Attr Value)).

(** X24.  [to_dict] never gives a key that starts with "temp_" or "__" or
    names a callable, whatever [ignore] is.  Called without [ignore] or
    with an empty list it leaves out the three default names; called with
    a non-empty list it leaves out the names of that list only, so an
    attribute that is none of the above is present with its value. *)
Theorem to_dict_keys self ignore k :
  ((String.prefix "temp_" k = true \/ String.prefix "__" k = true
    \/ exists a, self !! k = Some a /\ Stats.is_callable a = true) ->
   Stats.to_dict self ignore !! k = None)
  /\ ((ignore = None \/ ignore = Some []) ->
      k ∈ Stats.default_ignore -> Stats.to_dict self ignore !! k = None)
  /\ (forall name names a,
        ignore = Some (name :: names) ->
        self !! k = Some a ->
        Stats.is_callable a = false ->
        String.prefix "temp_" k = false ->
        String.prefix "__" k = false ->
        Stats.to_dict self ignore !! k
        = if bool_decide (k ∈ name :: names) then None
          else Some (Stats.value a)).
Proof.
  unfold Stats.to_dict, Stats.get_attrs.
  repeat split.
  - intros Hbad. rewrite lookup_fmap.
    destruct (filter _ self !! k) as [a|] eqn:Hk; [| done].
    apply map_lookup_filter_Some in Hk as [Hk Hy]. exfalso.
    unfold Stats.yielded in Hy. cbn in Hy.
    apply negb_true_iff in Hy.
    rewrite !orb_false_iff in Hy. destruct Hy as (((H1 & H2) & H3) & H4).
    destruct Hbad as [Ht | [Hu | (a' & Ha' & Hc)]]; congruence.
  - intros Hign Hin. rewrite lookup_fmap.
    replace (match ignore with
             | Some (name :: names) => name :: names
             | _ => Stats.default_ignore
             end) with (Stats.default_ignore)
      by (destruct Hign as [-> | ->]; reflexivity).
    destruct (filter _ self !! k) as [a|] eqn:Hk; [| done].
    apply map_lookup_filter_Some in Hk as [Hk Hy]. exfalso.
    unfold Stats.yielded in Hy. cbn in Hy.
    apply negb_true_iff in Hy.
    rewrite !orb_false_iff in Hy. destruct Hy as (_ & H4).
    by apply bool_decide_eq_false in H4.
  - intros name names a -> Hk Hc Ht Hu. rewrite lookup_fmap.
    destruct (bool_decide_reflect (k ∈ name :: names)) as [Hin | Hout].
    + rewrite map_lookup_filter_None_2; [done |].
      right. intros a' _ Hy. unfold Stats.yielded in Hy. cbn in Hy.
      apply negb_true_iff in Hy. rewrite !orb_false_iff in Hy.
      destruct Hy as (_ & H4). by apply bool_decide_eq_false in H4.
    + erewrite map_lookup_filter_Some_2; [done | exact Hk |].
      unfold Stats.yielded. cbn. rewrite Ht, Hu, Hc. cbn.
      by rewrite bool_decide_eq_false_2.
Qed.

End StatsAttributes.

Lemma iadd_fresh_witness :
  Stats.__iadd__
    {| Stats.usage := 7; Stats.min_resp_time := 18; Stats.max_resp_time := 250;
       Stats.others := "zato.ping" |}
    (Stats.__init__ 9223372036854775807 "")
  = {| Stats.usage := 7; Stats.min_resp_time := 18; Stats.max_resp_time := 250;
       Stats.others := "zato.ping" |}.
Proof. apply iadd_fresh; cbn; lia. Defined.

Lemma to_dict_keys_witness :
  Stats.to_dict
    (<["temp_rate" := {| Stats.value := 3%Z; Stats.is_callable := false |}]>
       (<["usage" := {| Stats.value := 7%Z; Stats.is_callable := false |}]> ∅))
    (Some []) !! "temp_rate"
  = None.
Proof.
  apply (proj1 (to_dict_keys
           (<["temp_rate" := {| Stats.value := 3%Z; Stats.is_callable := false |}]>
              (<["usage" := {| Stats.value := 7%Z; Stats.is_callable := false |}]> ∅))
           (Some []) "temp_rate")).
  left. reflexivity.
Defined.

(* ===================================================================== *)
(** * Properties of BrokerClient *)
(* ===================================================================== *)

Section BrokerProperties.

Variable handler : string -> option Py.exn.
Variable format_exc : Py.exn -> string.

Lemma close_socket s :
  Client.socket s = None -> Client.socket (Client.close s).1 = None.
Proof. intros Hs. unfold Client.close. by rewrite Hs. Qed.

Lemma react_socket l i :
  Client.socket (Client.sub l) = None ->
  Client.socket (Client.sub (Client.react handler format_exc l i)) = None.
Proof.
  intros Hs. unfold Client.react, Client.loop_head, Client.close.
  destruct i; destruct (Client.position l); rewrite ?Hs; cbn;
    rewrite ?Hs; auto.
Qed.

Lemma run_socket l inputs :
  Client.socket (Client.sub l) = None ->
  Client.socket (Client.sub (Client.run handler format_exc l inputs)) = None.
Proof.
  revert l. induction inputs as [|i inputs IH]; intros l Hs; [done |].
  cbn [Client.run fold_left]. apply IH. by apply react_socket.
Qed.

(** X25.  Nothing the subscriber loop does gives the subscriber a [socket]
    attribute.  So for a client as its constructor builds it,
    [BrokerClient.close], whenever it is called and whatever the
    subscriber has received, closes the push socket and logs that, sets the
    subscriber's flag to false, and then ends in AttributeError. *)
Theorem broker_client_close_raises PUSH push_addr sub_addr inputs :
  let c := Broker.__init__ PUSH push_addr sub_addr in
  let listening :=
    Client.run handler format_exc (Client.listen (Broker._sub c)) inputs in
  Client.socket (Client.sub listening) = None
  /\ Broker.close {| Broker._push := Broker._push c;
                     Broker._sub := Client.sub listening |}
     = ({| Broker._push :=
             {| Broker.push_address := push_addr; Broker.socket_type := PUSH;
                Broker.push_closed := true |};
           Broker._sub :=
             {| Client.address := Client.address (Client.sub listening);
                Client.sub_patterns := Client.sub_patterns (Client.sub listening);
                Client.keep_running := false; Client.socket := None |} |},
        [Py.format "Stopping [{0}/{1}]" [push_addr; Py.str PUSH]],
        Py.Raise (Py.AttributeError "socket")).
Proof.
  cbv zeta.
  assert (Hs : Client.socket
                 (Client.sub
                    (Client.run handler format_exc
                       (Client.listen
                          (Broker._sub (Broker.__init__ PUSH push_addr sub_addr)))
                       inputs)) = None)
    by (apply run_socket; reflexivity).
  split; [exact Hs |].
  unfold Broker.close, Client.close. cbn [Broker._sub Broker._push].
  rewrite Hs. reflexivity.
Qed.

End BrokerProperties.

Lemma broker_client_close_raises_witness :
  (Broker.close (Broker.__init__ 8 "tcp://broker:5000" "tcp://broker:5001")).2
  = Py.Raise (Py.AttributeError "socket").
Proof.
  exact (f_equal snd
           (proj2 (broker_client_close_raises Sample.handler Sample.format_exc
                     8 "tcp://broker:5000" "tcp://broker:5001" []))).
Defined.

(* ===================================================================== *)
(** * Invariants of the pool and of executeRequest *)
(* ===================================================================== *)



Section ExecuteRequestFrame.

Variable sha256_hexdigest : string -> string.
Variable format_exc : Py.exn -> string.
Variable str_of_headers : gmap string string -> string.
Variable ZATO_URL_TYPE_SOAP : string.
Variable server_soap_error : string -> Py.result string.
Variable ThreadCtx : Type.

Local Abbreviation executeRequest :=
  (Listener.executeRequest sha256_hexdigest format_exc str_of_headers
     ZATO_URL_TYPE_SOAP server_soap_error ThreadCtx).

Lemma tech_account_log sd rd body hdrs log :
  log `prefix_of`
    (Listener._handle_security_tech_account sha256_hexdigest str_of_headers
       sd rd body hdrs log).2.
Proof.
  rewrite tech_account_unfold. cbv zeta.
  repeat match goal with
         | |- context [if negb ?b then _ else _] => destruct b; cbn [negb]
         end; cbn [snd]; first [reflexivity | by eexists].
Qed.

(** X28.  Whenever [executeRequest] returns, it has left the request
    untouched, kept what had been written before and added one body behind
    it, changed no response header other than Content-Type and
    Content-Length, and only appended to the log. *)
Theorem executeRequest_frame server task ctx log task' log' :
  executeRequest server task ctx log = (Py.Ret task', log') ->
  Listener.request_data task' = Listener.request_data task
  /\ (exists response,
        Listener.written task' = Listener.written task ++ [response])
  /\ (forall k, k <> "Content-Type" -> k <> "Content-Length" ->
        Listener.response_headers task' !! k
        = Listener.response_headers task !! k)
  /\ log `prefix_of` log'.
Proof.
  unfold Listener.executeRequest.
  assert (Hlog : log `prefix_of`
                   (Listener.try_block sha256_hexdigest str_of_headers
                      ThreadCtx server task ctx log).2).
  { unfold Listener.try_block.
    destruct (Listener.url_security server !! _) as [ud|]; [| by eexists].
    rewrite handle_security_by_name.
    destruct (decide _); [| done].
    pose proof (tech_account_log (Listener.sec_def ud)
                  (Listener.request_data task)
                  (Listener.body_stream (Listener.request_data task))
                  (Listener.headers (Listener.request_data task)) log) as Hp.
    destruct (Listener._handle_security_tech_account _ _ _ _ _ _ _)
      as [[[]|err] l]; exact Hp. }
  destruct (Listener.try_block _ _ _ _ _ _ _) as [[ut outcome] log1].
  cbn [snd] in Hlog.
  assert (Hframe : forall t0 response l,
             (forall k, k <> "Content-Type" -> k <> "Content-Length" ->
                Listener.response_headers t0 !! k
                = Listener.response_headers task !! k) ->
             Listener.request_data t0 = Listener.request_data task ->
             Listener.written t0 = Listener.written task ->
             log `prefix_of` l ->
             (Py.Ret
                (Listener.write
                   (Listener.set_response_header
                      (Listener.set_response_header t0 "Content-Type"
                         (Listener.content_type_of ZATO_URL_TYPE_SOAP ut))
                      "Content-Length" (Py.str (String.length response)))
                   response), l) = (Py.Ret task', log') ->
             Listener.request_data task' = Listener.request_data task
             /\ (exists response,
                   Listener.written task' = Listener.written task ++ [response])
             /\ (forall k, k <> "Content-Type" -> k <> "Content-Length" ->
                   Listener.response_headers task' !! k
                   = Listener.response_headers task !! k)
             /\ log `prefix_of` log').
  { intros t0 response l Hh Hrd Hw Hl [= <- <-]. cbn.
    repeat split; [done | eexists; by rewrite Hw | | done].
    intros k H1 H2. rewrite !lookup_insert_ne by done. auto. }
  destruct outcome as [r | e]; cbn [Listener.except_clauses].
  - apply Hframe; [intros; reflexivity | reflexivity | reflexivity | exact Hlog].
  - destruct e as [st rs | n | k | m | d]; cbn [Listener.except_clauses];
      match goal with
      | |- context [Listener.wrap_error_message _ _ ut ?x] =>
          destruct (Listener.wrap_error_message ZATO_URL_TYPE_SOAP
                      server_soap_error ut x); [| discriminate]
      end;
      (apply Hframe;
       [ intros; reflexivity | reflexivity | reflexivity
       | first [exact Hlog | etransitivity; [exact Hlog | by eexists]] ]).
Qed.

End ExecuteRequestFrame.

Lemma executeRequest_frame_witness :
  exists task',
    fst (Sample.run "tech-account" "/svc" (Sample.credentials "u" "secret"))
    = Py.Ret task'
    /\ Listener.request_data task'
       = Sample.request "/svc" (Sample.credentials "u" "secret").
Proof.
  destruct (Sample.run "tech-account" "/svc" (Sample.credentials "u" "secret"))
    as [[task'|e] log'] eqn:Hrun; [| vm_compute in Hrun; discriminate].
  exists task'. split; [reflexivity |].
  apply (executeRequest_frame Sample.digest Sample.format_exc
           Sample.str_of_headers Sample.soap Sample.server_soap_error unit
           (Sample.server "tech-account")
           (Listener.new_task
              (Sample.request "/svc" (Sample.credentials "u" "secret")))
           tt [] task' log' Hrun).
Defined.

Section StatsBatches.

Context {Others : Type}.
Implicit Types (a : Stats.StatsElem Others) (bs : list (Stats.StatsElem Others)).

Lemma iadd_swap a b c :
  Stats.__iadd__ (Stats.__iadd__ a b) c = Stats.__iadd__ (Stats.__iadd__ a c) b.
Proof. unfold Stats.__iadd__. cbn. f_equal; lia. Qed.

(** X29.  Merging a batch of elements into one with [+=], one after the
    other, gives the same element whatever the order of the batch; its
    usage is the usage it had plus the sum of the usages of the batch. *)
Theorem iadd_batch_order a bs bs' :
  bs ≡ₚ bs' ->
  foldl Stats.__iadd__ a bs = foldl Stats.__iadd__ a bs'
  /\ Stats.usage (foldl Stats.__iadd__ a bs)
     = (Stats.usage a + foldr Z.add 0 (Stats.usage <$> bs))%Z.
Proof.
  intros Hperm. split.
  - revert a. induction Hperm as [|x l l' _ IH|x y l|l l' l'' _ IH1 _ IH2];
      intros a; cbn.
    + reflexivity.
    + apply IH.
    + by rewrite iadd_swap.
    + by rewrite IH1.
  - clear Hperm bs'. revert a. induction bs as [|b bs IH]; intros a; cbn.
    + lia.
    + rewrite IH. cbn. lia.
Qed.

End StatsBatches.

Lemma iadd_batch_order_witness :
  let e u mn mx :=
    {| Stats.usage := u; Stats.min_resp_time := mn; Stats.max_resp_time := mx;
       Stats.others := tt |} in
  foldl Stats.__iadd__ (e 1 5 9)%Z [e 2 3 4; e 7 8 20]%Z
  = foldl Stats.__iadd__ (e 1 5 9)%Z [e 7 8 20; e 2 3 4]%Z.
Proof.
  cbv zeta.
  apply (iadd_batch_order
           {| Stats.usage := 1; Stats.min_resp_time := 5;
              Stats.max_resp_time := 9; Stats.others := tt |}).
  apply perm_swap.
Defined.

(* ===================================================================== *)
(** * The listener on byte strings *)
(* ===================================================================== *)

Example raw_run_forbidden :
  exists t,
    RawSample.run (Raw.Returned "pong") "/svc" (Sample.credentials "u" "wrong")
    = (Raw.Answered t,
       ["The password is incorrect, URI=[/svc], X_ZATO_USER=[u]"])
    /\ Listener.status t = 403%Z.
Proof. eexists. split; vm_compute; reflexivity. Qed.

(** C5.  With the envelope helper as the design describes it,
    [wrap_error_message] returns for every URL type and every message: the
    message itself for every type other than the SOAP one, the unknown
    type [None] included, and the message inside the fault envelope for
    the SOAP type. *)
Theorem wrap_error_message_total soap fault_open fault_close url_type msg :
  exists body,
    Listener.wrap_error_message soap
      (SoapSpec.server_soap_error fault_open fault_close) url_type msg
    = Py.Ret body
    /\ (url_type <> Some soap -> body = msg)
    /\ (url_type = Some soap -> body = fault_open +:+ msg +:+ fault_close)
    /\ Listener.wrap_error_message soap
         (SoapSpec.server_soap_error fault_open fault_close) None msg
       = Py.Ret msg.
Proof.
  unfold Listener.wrap_error_message, SoapSpec.server_soap_error.
  destruct (decide (url_type = Some soap)) as [Heq | Hne];
    eexists; (split; [reflexivity |]); repeat split;
    try (intros; congruence).
Qed.

Lemma non_ascii_user_refused :
  Listener.credentials_refused Sample.digest Sample.sec_def
    (Sample.credentials RawSample.e_acute "secret").
Proof.
  right. right. left. exists RawSample.e_acute.
  split; [reflexivity | discriminate].
Qed.

(** C1, at a user name with a byte above 127.  The user name differs from
    the configured one, so the request is to be refused with 403; but the
    validator raises UnicodeDecodeError while it formats the line to log,
    before the 403, and [executeRequest] answers with the status left at
    200 and the traceback as body.  A password with such a byte, sent with
    the right user name, fails in the same way at the concatenation. *)
Theorem tech_account_non_ascii_not_forbidden :
  RawSample.validate (Sample.credentials RawSample.e_acute "secret")
  = (Py.Raise Raw.UnicodeDecodeError, [])
  /\ RawSample.validate (Sample.credentials "u" RawSample.e_acute)
     = (Py.Raise Raw.UnicodeDecodeError, [])
  /\ exists t,
       RawSample.run (Raw.Returned "pong") "/svc"
         (Sample.credentials RawSample.e_acute "secret")
       = (Raw.Answered t, ["Exception caught [Exception: UnicodeDecodeError]"])
       /\ Listener.status t = 200%Z
       /\ Listener.written t = ["Exception: UnicodeDecodeError"].
Proof.
  split; [vm_compute; reflexivity |].
  split; [vm_compute; reflexivity |].
  eexists. repeat split; vm_compute; reflexivity.
Qed.

(** C3, at a URI with a byte above 127 that is not in the table.  Formatting
    the URI into the message raises UnicodeDecodeError before the 404 is
    raised; the generic clause catches it, the status stays at 200 and the
    body is the traceback. *)
Theorem executeRequest_non_ascii_uri_not_404 :
  Listener.url_security (Sample.server "tech-account")
    !! ("/caf" +:+ RawSample.e_acute) = None
  /\ exists t,
       RawSample.run (Raw.Returned "pong") ("/caf" +:+ RawSample.e_acute)
         (Sample.credentials "u" "secret")
       = (Raw.Answered t, ["Exception caught [Exception: UnicodeDecodeError]"])
       /\ Listener.status t = 200%Z
       /\ Listener.status t <> Py.NOT_FOUND
       /\ Listener.written t = ["Exception: UnicodeDecodeError"].
Proof.
  split; [vm_compute; reflexivity |].
  eexists. repeat split; try (vm_compute; reflexivity).
  vm_compute. discriminate.
Qed.

(** C4, at a service that raises.  When the traceback holds a byte above
    127, formatting it into the line to log raises UnicodeDecodeError
    inside the [except] clause: the exception leaves [executeRequest] and
    nothing is written.  An exception that derives from [BaseException]
    only is caught by neither clause and leaves it as well. *)
Theorem executeRequest_exception_escapes :
  RawSample.run (Raw.Raised (Raw.Exc (Py.OtherError RawSample.e_acute)))
    "/svc" (Sample.credentials "u" "secret")
  = (Raw.Escaped (Raw.Exc Raw.UnicodeDecodeError), [])
  /\ RawSample.run (Raw.Raised (Raw.BaseOnly "KeyboardInterrupt"))
       "/svc" (Sample.credentials "u" "secret")
     = (Raw.Escaped (Raw.BaseOnly "KeyboardInterrupt"), []).
Proof. split; vm_compute; reflexivity. Qed.

Section RawValidator.

Variable sha256_hexdigest : string -> string.
Variable str_of_headers : gmap string string -> string.

Local Abbreviation raw_tech_account :=
  (Raw._handle_security_tech_account sha256_hexdigest str_of_headers).
Local Abbreviation tech_account :=
  (Listener._handle_security_tech_account sha256_hexdigest str_of_headers).
Local Abbreviation logged_msg what rd user :=
  (Py.format Listener.msg_template [what; Listener.uri rd; user]).

(** On a request whose URI, user name and password are ASCII, checked
    against an ASCII salt, the validator on byte strings does what the
    validator of [Listener] does. *)
Lemma raw_tech_account_ascii sd rd body hdrs log user secret :
  hdrs !! "X_ZATO_USER" = Some user ->
  hdrs !! "X_ZATO_PASSWORD" = Some secret ->
  Raw.is_ascii (Listener.uri rd) = true ->
  Raw.is_ascii user = true ->
  Raw.is_ascii secret = true ->
  Raw.is_ascii (Listener.salt sd) = true ->
  raw_tech_account sd rd body hdrs log = tech_account sd rd body hdrs log.
Proof.
  intros Hu Hp Huri Huser Hsecret Hsalt.
  unfold Raw._handle_security_tech_account,
    Listener._handle_security_tech_account, Listener.zato_headers.
  cbn [Raw.check_zato_headers Listener.check_zato_headers].
  unfold Raw.refuse, Raw.salted_hash, Raw.differs, Raw.format,
    Py.bind, Py.getitem, Py.ret, Py.raise, Py.logger_error.
  cbn [forallb Raw.decodes fmap list_fmap Raw.payload].
  rewrite Hu, Hp, Huri, Huser, Hsecret, Hsalt. cbn [andb].
  destruct (Py.truthy (Some user)); cbn [negb]; [| reflexivity].
  destruct (Py.truthy (Some secret)); cbn [negb]; [| reflexivity].
  destruct (String.eqb user (Listener.name sd)); cbn [negb]; [| reflexivity].
  destruct (String.eqb _ (Listener.password sd)); cbn [negb]; reflexivity.
Qed.


End RawValidator.

